(** * CaptchaModule: a shallow embedding of [src/models/captcha_module.py]

    The module is a set of lifecycle callbacks over a training framework.
    Its own logic is: aggregating the configured losses into a dictionary
    with a weighted [total_loss], logging that dictionary with a stage
    prefix, calling the visualizer on every 100th validation batch, keeping
    the two test counters, and assembling the optimizer dictionary.

    Modelling choices.
    - Scalars (Python floats, zero-dimensional tensors) are an interface
      [Scalar] with no law assumed, so that the structural theorems hold for
      any arithmetic; it is instantiated with binary64 floats, the
      arithmetic of Python.
    - A Python [dict] is an insertion-ordered association list, because
      [losses.items()] fixes the order of the logging calls.
    - The callbacks run in a small state-and-exception monad over the module
      instance; the calls they make on the framework and on the visualizer
      are collected as a trace of events. *)

From Stdlib Require Import String List ZArith Floats Bool Lia.
Import ListNotations.

Local Open Scope string_scope.
Local Open Scope list_scope.
Local Open Scope Z_scope.

(** ** Scalars *)

(** What the module needs from its numbers: the literal [0.0], [+], [*],
    [/] and the promotion of a Python [int]. *)
Class Scalar (R : Type) : Type := {
  fzero : R;
  add : R -> R -> R;
  mul : R -> R -> R;
  div : R -> R -> R;
  of_int : Z -> R
}.

(** IEEE 754 binary64, the arithmetic of a Python [float]; integers are
    promoted through a 63-bit word, which is exact below 2^53. *)
#[export] Instance Scalar_float : Scalar float := {|
  fzero := PrimFloat.zero;
  add := PrimFloat.add;
  mul := PrimFloat.mul;
  div := PrimFloat.div;
  of_int := fun z =>
    if z <? 0 then PrimFloat.opp (PrimFloat.of_uint63 (Uint63.of_Z (- z)))
    else PrimFloat.of_uint63 (Uint63.of_Z z)
|}.

(** ** Python dictionaries *)

Module PyDict.
Section Dict.
Context {V : Type}.

Definition t := list (string * V).

(** [d.get(k)]: [None] stands for Python's [None]. *)
Fixpoint get (d : t) (k : string) : option V :=
  match d with
  | [] => None
  | (k', v) :: d' => if String.eqb k' k then Some v else get d' k
  end.

(** [d[k] = v]: an existing key keeps its position, a new one goes last. *)
Fixpoint set (d : t) (k : string) (v : V) : t :=
  match d with
  | [] => [(k, v)]
  | (k', v') :: d' =>
      if String.eqb k' k then (k', v) :: d' else (k', v') :: set d' k v
  end.

(** [d.items()], in insertion order. *)
Definition items (d : t) : list (string * V) := d.

Definition keys (d : t) : list string := map fst d.
End Dict.
Arguments t : clear implicits.
End PyDict.

(** ** Collaborators

    The network, the optimizer and scheduler factories and the visualizer
    ([src/utils/get_visualize.py]) are outside the module: they are taken as
    parameters.  [get_accuracy] returns the raw pair (correct, total) of
    counts, which are Python integers like the initial [0] of the two
    counters. *)
Class Collaborators (R : Type) : Type := {
  Net : Type;
  Images : Type;
  Labels : Type;
  Prediction : Type;
  Device : Type;
  Figure : Type;
  Params : Type;
  Optimizer : Type;
  LRScheduler : Type;
  (* [net(x)] *)
  net_call : Net -> Images -> Prediction;
  (* [net.num_classes] *)
  net_num_classes : Net -> Z;
  (* [torch.compile(net)] *)
  torch_compile : Net -> Net;
  (* [self.parameters()]: the module's only registered submodule with
     parameters is [net] *)
  parameters : Net -> Params;
  (* [DataVisualizer(net, device).visualize_prediction(images, labels)] *)
  visualize_prediction : Net -> Device -> Images -> Labels -> Figure * R;
  (* [DataVisualizer(net, device).get_accuracy(images, labels)] *)
  get_accuracy : Net -> Device -> Images -> Labels -> Z * Z
}.

Section Module_.
Context {R : Type} `{Scalar R} `{Collaborators R}.

(** A loss function: a callable with a [tag] and a [weight]. *)
Record LossFn : Type := {
  tag : string;
  weight : R;
  loss_call : Prediction -> Images -> Labels -> R
}.

Definition Batch : Type := Images * Labels.

(** [self.hparams], as saved by [save_hyperparameters]. *)
Record HParams : Type := {
  hp_net : Net;
  hp_optimizer : Params -> Optimizer;
  hp_loss_fns : list LossFn;
  hp_scheduler : option (Optimizer -> LRScheduler);
  hp_compile : bool
}.

(** A torchmetrics object is represented by the arguments of the updates
    it has received since its last reset; [reset()] empties it. *)
Definition Metric (A : Type) : Type := list A.
Definition metric_reset {A} (m : Metric A) : Metric A := [].
Definition metric_update {A} (m : Metric A) (a : A) : Metric A := m ++ [a].

(** The instance.  [device] and [global_step] are properties the framework
    maintains. *)
Record CaptchaModule : Type := {
  hparams : HParams;
  net : Net;
  loss_fns : list LossFn;
  num_classes : Z;
  train_acc : Metric (Prediction * Labels);
  val_acc : Metric (Prediction * Labels);
  test_acc : Metric (Prediction * Labels);
  train_loss : Metric (option R);
  val_loss : Metric (option R);
  test_loss : Metric (option R);
  val_acc_best : Metric R;
  correct_count : Z;
  total_count : Z;
  device : Device;
  global_step : Z
}.

(** [__init__] *)
Definition init (net0 : Net) (optimizer : Params -> Optimizer)
    (loss_fns0 : list LossFn) (scheduler : option (Optimizer -> LRScheduler))
    (compile : bool) (dev : Device) : CaptchaModule :=
  let hp := {| hp_net := net0; hp_optimizer := optimizer;
               hp_loss_fns := loss_fns0; hp_scheduler := scheduler;
               hp_compile := compile |} in
  {| hparams := hp;
     net := net0;
     loss_fns := loss_fns0;
     num_classes := net_num_classes (hp_net hp) + 1;
     train_acc := []; val_acc := []; test_acc := [];
     train_loss := []; val_loss := []; test_loss := [];
     val_acc_best := [];
     correct_count := 0;
     total_count := 0;
     device := dev;
     global_step := 0 |}.

(** Attribute assignments [self.x = ...]. *)
Definition set_net (n : Net) (s : CaptchaModule) : CaptchaModule :=
  {| hparams := hparams s; net := n; loss_fns := loss_fns s;
     num_classes := num_classes s;
     train_acc := train_acc s; val_acc := val_acc s; test_acc := test_acc s;
     train_loss := train_loss s; val_loss := val_loss s;
     test_loss := test_loss s; val_acc_best := val_acc_best s;
     correct_count := correct_count s; total_count := total_count s;
     device := device s; global_step := global_step s |}.

Definition set_train_loss (m : Metric (option R)) (s : CaptchaModule) :=
  {| hparams := hparams s; net := net s; loss_fns := loss_fns s;
     num_classes := num_classes s;
     train_acc := train_acc s; val_acc := val_acc s; test_acc := test_acc s;
     train_loss := m; val_loss := val_loss s;
     test_loss := test_loss s; val_acc_best := val_acc_best s;
     correct_count := correct_count s; total_count := total_count s;
     device := device s; global_step := global_step s |}.

Definition set_val_loss (m : Metric (option R)) (s : CaptchaModule) :=
  {| hparams := hparams s; net := net s; loss_fns := loss_fns s;
     num_classes := num_classes s;
     train_acc := train_acc s; val_acc := val_acc s; test_acc := test_acc s;
     train_loss := train_loss s; val_loss := m;
     test_loss := test_loss s; val_acc_best := val_acc_best s;
     correct_count := correct_count s; total_count := total_count s;
     device := device s; global_step := global_step s |}.

Definition set_test_loss (m : Metric (option R)) (s : CaptchaModule) :=
  {| hparams := hparams s; net := net s; loss_fns := loss_fns s;
     num_classes := num_classes s;
     train_acc := train_acc s; val_acc := val_acc s; test_acc := test_acc s;
     train_loss := train_loss s; val_loss := val_loss s;
     test_loss := m; val_acc_best := val_acc_best s;
     correct_count := correct_count s; total_count := total_count s;
     device := device s; global_step := global_step s |}.

Definition set_val_acc (m : Metric (Prediction * Labels)) (s : CaptchaModule) :=
  {| hparams := hparams s; net := net s; loss_fns := loss_fns s;
     num_classes := num_classes s;
     train_acc := train_acc s; val_acc := m; test_acc := test_acc s;
     train_loss := train_loss s; val_loss := val_loss s;
     test_loss := test_loss s; val_acc_best := val_acc_best s;
     correct_count := correct_count s; total_count := total_count s;
     device := device s; global_step := global_step s |}.

Definition set_val_acc_best (m : Metric R) (s : CaptchaModule) :=
  {| hparams := hparams s; net := net s; loss_fns := loss_fns s;
     num_classes := num_classes s;
     train_acc := train_acc s; val_acc := val_acc s; test_acc := test_acc s;
     train_loss := train_loss s; val_loss := val_loss s;
     test_loss := test_loss s; val_acc_best := m;
     correct_count := correct_count s; total_count := total_count s;
     device := device s; global_step := global_step s |}.

Definition set_counts (c : Z * Z) (s : CaptchaModule) :=
  {| hparams := hparams s; net := net s; loss_fns := loss_fns s;
     num_classes := num_classes s;
     train_acc := train_acc s; val_acc := val_acc s; test_acc := test_acc s;
     train_loss := train_loss s; val_loss := val_loss s;
     test_loss := test_loss s; val_acc_best := val_acc_best s;
     correct_count := fst c; total_count := snd c;
     device := device s; global_step := global_step s |}.

(** ** Effects *)

(** The calls the module makes on its surroundings. *)
Inductive Event : Type :=
(* [self.log(name, value, on_step=.., on_epoch=.., prog_bar=..)]; [None]
   is the framework's default of an omitted flag *)
| Log (name : string) (value : R) (on_step on_epoch : option bool)
      (prog_bar : bool)
(* [self.logger.experiment.add_figure(tag, fig, global_step)] *)
| AddFigure (name : string) (fig : Figure) (step : Z)
(* [self.logger.experiment.add_scalar(tag, value, global_step)] *)
| AddScalar (name : string) (value : R) (step : Z)
(* the two calls on a freshly built [DataVisualizer(net, device)] *)
| VisualizePrediction (n : Net) (d : Device) (x : Images) (y : Labels)
| GetAccuracy (n : Net) (d : Device) (x : Images) (y : Labels).

Inductive Exn : Type :=
| ZeroDivisionError
| KeyError (k : string).

Inductive Outcome (A : Type) : Type :=
| Returned (a : A) (self : CaptchaModule) (out : list Event)
| Raised (e : Exn) (self : CaptchaModule) (out : list Event).
Arguments Returned {A}.
Arguments Raised {A}.

(** A method of the module: from the instance to a result, the updated
    instance and the events emitted. *)
Definition M (A : Type) : Type := CaptchaModule -> Outcome A.

Definition ret {A} (a : A) : M A := fun s => Returned a s [].

Definition bind {A B} (c : M A) (k : A -> M B) : M B :=
  fun s =>
    match c s with
    | Returned a s1 o1 =>
        match k a s1 with
        | Returned b s2 o2 => Returned b s2 (o1 ++ o2)
        | Raised e s2 o2 => Raised e s2 (o1 ++ o2)
        end
    | Raised e s1 o1 => Raised e s1 o1
    end.

Definition get_self : M CaptchaModule := fun s => Returned s s [].
Definition modify (f : CaptchaModule -> CaptchaModule) : M unit :=
  fun s => Returned tt (f s) [].
Definition emit (e : Event) : M unit := fun s => Returned tt s [e].
Definition raise {A} (e : Exn) : M A := fun s => Raised e s [].

(** [for x in xs: body(x)] *)
Fixpoint for_each {X} (xs : list X) (body : X -> M unit) : M unit :=
  match xs with
  | [] => ret tt
  | x :: xs' => bind (body x) (fun _ => for_each xs' body)
  end.

(** A [for] loop that carries a local variable. *)
Fixpoint for_fold {X A} (xs : list X) (body : A -> X -> M A) (a : A) : M A :=
  match xs with
  | [] => ret a
  | x :: xs' => bind (body a x) (fun a' => for_fold xs' body a')
  end.

(** [d[k]] *)
Definition getitem (d : PyDict.t R) (k : string) : M R :=
  match PyDict.get d k with
  | Some v => ret v
  | None => raise (KeyError k)
  end.

(** [a / b] on two Python integers. *)
Definition truediv (a b : Z) : M R :=
  if b =? 0 then raise ZeroDivisionError
  else ret (div (of_int a) (of_int b)).
End Module_.

Arguments Returned {_ _ _} _ _ _.
Arguments Raised {_ _ _} _ _ _.

Declare Scope py_scope.
Delimit Scope py_scope with py.
Notation "x <- c ;; k" := (bind c (fun x => k))
  (at level 61, c at next level, right associativity) : py_scope.
Notation "c ;; k" := (bind c (fun _ => k))
  (at level 61, right associativity) : py_scope.
Local Open Scope py_scope.

(** ** The callbacks *)

Section Callbacks.
Context {R : Type} `{Scalar R} `{Collaborators R}.

(** Values of the dictionary [configure_optimizers] returns. *)
#[local] Unset Elimination Schemes.
Inductive PyVal : Type :=
| VOptimizer (o : Optimizer)
| VScheduler (s : LRScheduler)
| VStr (s : string)
| VInt (z : Z)
| VDict (d : list (string * PyVal)).
#[local] Set Elimination Schemes.

Definition forward (x : Images) : M Prediction :=
  self <- get_self ;;
  ret (net_call (net self) x).

Definition on_train_start : M unit :=
  modify (fun self => set_val_loss (metric_reset (val_loss self)) self) ;;
  modify (fun self => set_val_acc (metric_reset (val_acc self)) self) ;;
  modify (fun self => set_val_acc_best (metric_reset (val_acc_best self)) self).

Definition model_step (batch : Batch)
  : M (PyDict.t R * Prediction * Images * Labels) :=
  let '(images, labels_encoded) := batch in
  prediction <- forward images ;;
  let losses : PyDict.t R := [] in
  let losses := PyDict.set losses "total_loss" fzero in
  self <- get_self ;;
  losses <- for_fold (loss_fns self)
    (fun losses loss_fn =>
       let losses :=
         PyDict.set losses (tag loss_fn)
           (loss_call loss_fn prediction images labels_encoded) in
       (* losses["total_loss"] += losses[loss_fn.tag] * loss_fn.weight *)
       total <- getitem losses "total_loss" ;;
       value <- getitem losses (tag loss_fn) ;;
       ret (PyDict.set losses "total_loss"
              (add total (mul value (weight loss_fn)))))
    losses ;;
  ret (losses, prediction, images, labels_encoded).

Definition training_step (batch : Batch) (batch_idx : Z) : M (option R) :=
  r <- model_step batch ;;
  let '(losses, prediction, images, labels_encoded) := r in
  modify (fun self =>
    set_train_loss
      (metric_update (train_loss self) (PyDict.get losses "total_loss")) self) ;;
  for_each (PyDict.items losses)
    (fun '(loss_name, loss_value) =>
       emit (Log ("train/" ++ loss_name) loss_value
               (Some false) (Some true) true)) ;;
  ret (PyDict.get losses "total_loss").

Definition on_train_epoch_end : M unit := ret tt.

Definition validation_step (batch : Batch) (batch_idx : Z) : M unit :=
  r <- model_step batch ;;
  let '(losses, prediction, images, labels_encoded) := r in
  modify (fun self =>
    set_val_loss
      (metric_update (val_loss self) (PyDict.get losses "total_loss")) self) ;;
  for_each (PyDict.items losses)
    (fun '(loss_name, loss_value) =>
       emit (Log ("val/" ++ loss_name) loss_value
               (Some false) (Some true) true)) ;;
  if batch_idx mod 100 =? 0 then
    self <- get_self ;;
    emit (VisualizePrediction (net self) (device self) images labels_encoded) ;;
    let '(fig, accuracy) :=
      visualize_prediction (net self) (device self) images labels_encoded in
    emit (AddFigure "Predicted_Images" fig (global_step self)) ;;
    emit (AddScalar "Accuracy" accuracy (global_step self)) ;;
    emit (Log "val/Accuracy" accuracy (Some false) (Some true) true)
  else ret tt.

Definition on_validation_epoch_end : M unit := ret tt.

Definition test_step (batch : Batch) (batch_idx : Z) : M unit :=
  r <- model_step batch ;;
  let '(losses, prediction, images, labels_encoded) := r in
  self <- get_self ;;
  emit (GetAccuracy (net self) (device self) images labels_encoded) ;;
  modify (set_counts
            (get_accuracy (net self) (device self) images labels_encoded)) ;;
  modify (fun self =>
    set_test_loss
      (metric_update (test_loss self) (PyDict.get losses "total_loss")) self) ;;
  for_each (PyDict.items losses)
    (fun '(loss_name, loss_value) =>
       emit (Log ("test/" ++ loss_name) loss_value
               (Some false) (Some true) true)).

Definition on_test_epoch_end : M unit :=
  self <- get_self ;;
  q <- truediv (correct_count self) (total_count self) ;;
  let accuracy := mul q (of_int 100) in
  emit (Log "Test Dataset Accuracy" accuracy None None false).

Definition setup (stage : string) : M unit :=
  self <- get_self ;;
  if hp_compile (hparams self) && String.eqb stage "fit" then
    modify (set_net (torch_compile (net self)))
  else ret tt.

Definition configure_optimizers : M (PyDict.t PyVal) :=
  self <- get_self ;;
  let optimizer := hp_optimizer (hparams self) (parameters (net self)) in
  match hp_scheduler (hparams self) with
  | Some make_scheduler =>
      let scheduler := make_scheduler optimizer in
      ret [ ("optimizer", VOptimizer optimizer);
            ("lr_scheduler",
             VDict [ ("scheduler", VScheduler scheduler);
                     ("monitor", VStr "val/total_loss");
                     ("interval", VStr "epoch");
                     ("frequency", VInt 1) ]) ]
  | None => ret [ ("optimizer", VOptimizer optimizer) ]
  end.
End Callbacks.

(** ** What one pass of [model_step] computes *)

Section AggregatorDefs.
Context {R : Type} `{Scalar R} `{Collaborators R}.

(** The body of the loop of [model_step] without the exception plumbing:
    both subscripts are defined, because the loop has just stored the tag
    and [total_loss] is stored before the loop. *)
Definition loss_iter (prediction : Prediction) (images : Images)
    (labels_encoded : Labels) (losses : PyDict.t R) (loss_fn : LossFn)
  : PyDict.t R :=
  let losses :=
    PyDict.set losses (tag loss_fn)
      (loss_call loss_fn prediction images labels_encoded) in
  match PyDict.get losses "total_loss", PyDict.get losses (tag loss_fn) with
  | Some total, Some value =>
      PyDict.set losses "total_loss" (add total (mul value (weight loss_fn)))
  | _, _ => losses
  end.

(** The dictionary [model_step] returns for [self] and a batch. *)
Definition model_losses (self : CaptchaModule) (batch : Batch) : PyDict.t R :=
  let prediction := net_call (net self) (fst batch) in
  fold_left (loss_iter prediction (fst batch) (snd batch)) (loss_fns self)
    (PyDict.set [] "total_loss" fzero).

(** The weighted sum of the losses, added up from [0.0] in list order, each
    term being the value times the weight as the code multiplies them. *)
Definition weighted_sum_from (prediction : Prediction) (images : Images)
    (labels_encoded : Labels) (fns : list LossFn) (start : R) : R :=
  fold_left
    (fun acc f =>
       add acc (mul (loss_call f prediction images labels_encoded) (weight f)))
    fns start.

Definition weighted_sum (prediction : Prediction) (images : Images)
    (labels_encoded : Labels) (fns : list LossFn) : R :=
  weighted_sum_from prediction images labels_encoded fns fzero.

(** The last function of the list that carries tag [k]. *)
Fixpoint last_with_tag (k : string) (fns : list LossFn) : option LossFn :=
  match fns with
  | [] => None
  | f :: fns' =>
      match last_with_tag k fns' with
      | Some g => Some g
      | None => if String.eqb (tag f) k then Some f else None
      end
  end.

(** No function uses the key under which the total is kept. *)
Definition tags_avoid_total (fns : list LossFn) : Prop :=
  Forall (fun f => tag f <> "total_loss") fns.

Definition tags_avoid_totalb (fns : list LossFn) : bool :=
  forallb (fun f => negb (String.eqb (tag f) "total_loss")) fns.
End AggregatorDefs.

(** ** The framework's loop and the shape of the traces *)

Section RunDefs.
Context {R : Type} `{Scalar R} `{Collaborators R}.

(** The framework's test loop: [test_step] on the batches of the loader in
    turn, numbered from [batch_idx], then [on_test_epoch_end]. *)
Fixpoint test_steps (batches : list Batch) (batch_idx : Z) : M unit :=
  match batches with
  | [] => ret tt
  | batch :: rest =>
      test_step batch batch_idx ;; test_steps rest (batch_idx + 1)
  end.

Definition test_epoch (batches : list Batch) : M unit :=
  test_steps batches 0 ;; on_test_epoch_end.

(** The logging call of one entry of the loss dictionary. *)
Definition log_entry (prefix : string) (entry : string * R) : Event :=
  Log (prefix ++ fst entry) (snd entry) (Some false) (Some true) true.

(** The four calls of the visualization branch of [validation_step]. *)
Definition visualization (self : CaptchaModule) (batch : Batch) : list Event :=
  let r :=
    visualize_prediction (net self) (device self) (fst batch) (snd batch) in
  [ VisualizePrediction (net self) (device self) (fst batch) (snd batch);
    AddFigure "Predicted_Images" (fst r) (global_step self);
    AddScalar "Accuracy" (snd r) (global_step self);
    Log "val/Accuracy" (snd r) (Some false) (Some true) true ].

Definition is_visualization (e : Event) : bool :=
  match e with
  | VisualizePrediction _ _ _ _ | AddFigure _ _ _ | AddScalar _ _ _ => true
  | Log _ _ _ _ _ | GetAccuracy _ _ _ _ => false
  end.

(** A method that leaves the two test counters as they were, however it
    ends. *)
Definition keeps_counts {A} (method : M A) : Prop :=
  forall self : CaptchaModule,
    match method self with
    | Returned _ self' _ | Raised _ self' _ =>
        correct_count self' = correct_count self
        /\ total_count self' = total_count self
    end.
End RunDefs.

(** ** A small concrete world

    Concrete collaborators on which the callbacks can be run: networks,
    images, labels and predictions are numbers, the network adds its number
    to the image, compiling a network takes its successor, and the
    visualizer reports the label as the number of correct answers and the
    image as the total. *)

Module Demo.
Definition world (R : Type) `{Scalar R} : Collaborators R := {|
  Net := nat;
  Images := nat;
  Labels := nat;
  Prediction := nat;
  Device := unit;
  Figure := nat;
  Params := nat;
  Optimizer := nat;
  LRScheduler := nat;
  net_call := fun n x => (n + x)%nat;
  net_num_classes := fun _ => 36;
  torch_compile := S;
  parameters := fun n => n;
  visualize_prediction := fun _ _ x y => (x, of_int (Z.of_nat y));
  get_accuracy := fun _ _ x y => (Z.of_nat y, Z.of_nat x)
|}.

#[local] Instance world_float : Collaborators float := world float.

(** A loss function that returns [value] on every input. *)
Definition const_loss {R} `{Scalar R} (name : string) (w value : R)
  : @LossFn R (world R) :=
  {| tag := name; weight := w; loss_call := fun _ _ _ => value |}.

(** Two losses with weights 0.5 and 2.0 and raw values 1.0 and 3.0. *)
Definition two_losses : list (@LossFn float world_float) :=
  [ const_loss "ctc" 0.5%float 1%float;
    const_loss "center" 2%float 3%float ].

(** Two losses under one tag. *)
Definition same_tag : list (@LossFn float world_float) :=
  [ const_loss "ctc" 0.5%float 1%float;
    const_loss "ctc" 2%float 3%float ].

(** A loss function tagged with the key of the total. *)
Definition reserved_tag : list (@LossFn float world_float) :=
  [ const_loss "total_loss" 2%float 3%float ].

(** Two loss functions tagged with the key of the total. *)
Definition reserved_tag_twice : list (@LossFn float world_float) :=
  [ const_loss "total_loss" 1%float 1%float;
    const_loss "total_loss" 1%float 2%float ].

(** [CaptchaModule(net=7, optimizer, loss_fns, scheduler, compile)] *)
Definition module_with {R} `{Scalar R} (fns : list (@LossFn R (world R)))
    (scheduler : option (nat -> nat)) (compile : bool)
  : @CaptchaModule R (world R) :=
  @init R (world R) 7%nat (fun params => params) fns scheduler compile tt.

(** A batch on which the visualizer counts 45 correct answers of 50. *)
Definition batch_45_of_50 : nat * nat := (50%nat, 45%nat).

(** A batch on which the visualizer counts 29 correct answers of 100. *)
Definition batch_29_of_100 : nat * nat := (100%nat, 29%nat).

(** A batch on which the visualizer counts no sample at all. *)
Definition batch_empty : nat * nat := (0%nat, 0%nat).
End Demo.

(** ** The framework around the callbacks

    The training framework owns the loops; it calls the hooks of the module
    one after the other on the same instance, and an exception raised by a
    hook ends the run. *)

Section FrameworkDefs.
Context {R : Type} `{Scalar R} `{Collaborators R}.

(** The framework's validation loop (the sanity check as well): one
    [validation_step] per batch, numbered from [batch_idx]. *)
Fixpoint validation_steps (batches : list Batch) (batch_idx : Z) : M unit :=
  match batches with
  | [] => ret tt
  | batch :: rest =>
      validation_step batch batch_idx ;; validation_steps rest (batch_idx + 1)
  end.

(** One call of the framework on the module. *)
Inductive Call : Type :=
| CallSetup (stage : string)
| CallConfigureOptimizers
| CallOnTrainStart
| CallTrainingStep (batch : Batch) (batch_idx : Z)
| CallOnTrainEpochEnd
| CallValidationStep (batch : Batch) (batch_idx : Z)
| CallOnValidationEpochEnd
| CallTestStep (batch : Batch) (batch_idx : Z)
| CallOnTestEpochEnd.

Definition dispatch (c : Call) : M unit :=
  match c with
  | CallSetup stage => setup stage
  | CallConfigureOptimizers => configure_optimizers ;; ret tt
  | CallOnTrainStart => on_train_start
  | CallTrainingStep batch batch_idx => training_step batch batch_idx ;; ret tt
  | CallOnTrainEpochEnd => on_train_epoch_end
  | CallValidationStep batch batch_idx => validation_step batch batch_idx
  | CallOnValidationEpochEnd => on_validation_epoch_end
  | CallTestStep batch batch_idx => test_step batch batch_idx
  | CallOnTestEpochEnd => on_test_epoch_end
  end.

Fixpoint run_calls (calls : list Call) : M unit :=
  match calls with
  | [] => ret tt
  | c :: rest => dispatch c ;; run_calls rest
  end.

(** The instance a run leaves behind, whether it returned or raised. *)
Definition final_self {A} (o : Outcome A) : CaptchaModule :=
  match o with
  | Returned _ self _ | Raised _ self _ => self
  end.

(** The calls a run has made, whether it returned or raised. *)
Definition trace {A} (o : Outcome A) : list Event :=
  match o with
  | Returned _ _ out | Raised _ _ out => out
  end.

(** The calls [setup("fit")]. *)
Definition is_fit_setup (c : Call) : bool :=
  match c with
  | CallSetup stage => String.eqb stage "fit"
  | _ => false
  end.

(** The number of [setup("fit")] calls in a list of calls. *)
Definition count_fit (calls : list Call) : nat :=
  length (filter is_fit_setup calls).

(** The keys of a dictionary filled in the order [l]: every key once, at
    the place of its first occurrence. *)
Definition first_occurrences (l : list string) : list string :=
  rev (nodup string_dec (rev l)).

(** The entry a loss function leaves in the mapping. *)
Definition loss_entry (prediction : Prediction) (images : Images)
    (labels_encoded : Labels) (f : LossFn) : string * R :=
  (tag f, loss_call f prediction images labels_encoded).

Definition is_visualizer_call (e : Event) : bool :=
  match e with
  | VisualizePrediction _ _ _ _ => true
  | _ => false
  end.

(** The batch numbers from [start] on, one per batch. *)
Fixpoint batch_indices (n : nat) (start : Z) : list Z :=
  match n with
  | O => []
  | S n' => start :: batch_indices n' (start + 1)
  end.
(** The total [model_step] computes on each batch of a list. *)
Definition batch_totals (self : CaptchaModule) (batches : list Batch)
  : list (option R) :=
  map (fun batch => PyDict.get (model_losses self batch) "total_loss") batches.
End FrameworkDefs.

(** ** Facts on dictionaries *)

Module PyDictFacts.
Section Facts.
Context {V : Type}.

Lemma get_set_same (d : PyDict.t V) k v :
    PyDict.get (PyDict.set d k v) k = Some v.
Proof.
  induction d as [|[k' v'] d IH]; simpl.
  - now rewrite String.eqb_refl.
  - destruct (String.eqb k' k) eqn:E; simpl; rewrite E; auto.
Qed.

Lemma get_set_other (d : PyDict.t V) k k' v :
    k <> k' -> PyDict.get (PyDict.set d k v) k' = PyDict.get d k'.
Proof.
  intros Hne. induction d as [|[k0 v0] d IH]; simpl.
  - destruct (String.eqb_spec k k'); [contradiction | reflexivity].
  - destruct (String.eqb_spec k0 k) as [->|Hk]; simpl.
    + destruct (String.eqb_spec k k'); [contradiction | reflexivity].
    + destruct (String.eqb k0 k'); auto.
Qed.

Lemma get_In (d : PyDict.t V) k v : PyDict.get d k = Some v -> In (k, v) d.
Proof.
  induction d as [|[k' v'] d IH]; simpl; [discriminate|].
  destruct (String.eqb_spec k' k) as [->|Hk]; intros H.
  - left. congruence.
  - right. auto.
Qed.

Lemma keys_set_NoDup (d : PyDict.t V) k v :
  NoDup (PyDict.keys d) -> NoDup (PyDict.keys (PyDict.set d k v)).
Proof.
  assert (Hin : forall (d : PyDict.t V) x,
             In x (PyDict.keys (PyDict.set d k v)) ->
             x = k \/ In x (PyDict.keys d)).
  { clear. induction d as [|[k' v'] d IH]; simpl; intros x Hx.
    - destruct Hx as [<-|[]]. now left.
    - destruct (String.eqb_spec k' k) as [->|Hk]; simpl in Hx.
      + destruct Hx as [<-|Hx]; auto.
      + destruct Hx as [<-|Hx]; auto.
        destruct (IH _ Hx); auto. }
  induction d as [|[k' v'] d IH]; simpl; intros Hnd.
  - constructor; [intros [] | constructor].
  - inversion Hnd as [|? ? Hni Hnd']; subst.
    destruct (String.eqb_spec k' k) as [->|Hk]; simpl.
    + now constructor.
    + constructor; auto.
      intros Hx. destruct (Hin _ _ Hx) as [->|]; contradiction.
Qed.

Lemma In_get (d : PyDict.t V) k v :
    NoDup (PyDict.keys d) -> In (k, v) d -> PyDict.get d k = Some v.
Proof.
  induction d as [|[k' v'] d IH]; simpl; [intros _ []|].
  intros Hnd [Heq|Hin].
  - inversion Heq; subst. now rewrite String.eqb_refl.
  - inversion Hnd as [|? ? Hni Hnd']; subst.
    destruct (String.eqb_spec k' k) as [->|Hk]; auto.
    exfalso. apply Hni. change k with (fst (k, v)). now apply in_map.
Qed.
End Facts.
End PyDictFacts.

(** ** Facts on the loss aggregator *)

Section Aggregator.
Context {R : Type} `{Scalar R} `{Collaborators R}.

Lemma tags_avoid_totalb_spec fns :
  tags_avoid_totalb fns = true <-> tags_avoid_total fns.
Proof.
  unfold tags_avoid_totalb, tags_avoid_total.
  rewrite forallb_forall, Forall_forall.
  split; intros Hall f Hf; specialize (Hall f Hf).
  - intros E. rewrite E in Hall. discriminate.
  - destruct (String.eqb_spec (tag f) "total_loss"); [contradiction | reflexivity].
Qed.

Section Loop.
Variables (prediction : Prediction) (images : Images) (labels_encoded : Labels).

Lemma loss_iter_has_total d f :
  PyDict.get d "total_loss" <> None ->
  PyDict.get (loss_iter prediction images labels_encoded d f) "total_loss"
    <> None.
Proof.
  intros Hd. unfold loss_iter.
  rewrite (PyDictFacts.get_set_same d (tag f)).
  destruct (PyDict.get (PyDict.set d (tag f) _) "total_loss") eqn:E.
  - rewrite PyDictFacts.get_set_same. discriminate.
  - destruct (String.eqb_spec (tag f) "total_loss") as [Ht|Ht].
    + rewrite Ht, PyDictFacts.get_set_same in E. discriminate.
    + rewrite PyDictFacts.get_set_other in E by assumption. contradiction.
Qed.

Lemma loss_iter_total d f t :
  tag f <> "total_loss" ->
  PyDict.get d "total_loss" = Some t ->
  PyDict.get (loss_iter prediction images labels_encoded d f) "total_loss"
  = Some (add t (mul (loss_call f prediction images labels_encoded)
                   (weight f))).
Proof.
  intros Ht Hd. unfold loss_iter.
  rewrite (PyDictFacts.get_set_same d (tag f)).
  rewrite PyDictFacts.get_set_other by assumption.
  rewrite Hd. apply PyDictFacts.get_set_same.
Qed.

Lemma loss_iter_other d f k :
  k <> "total_loss" ->
  PyDict.get (loss_iter prediction images labels_encoded d f) k
  = if String.eqb (tag f) k
    then Some (loss_call f prediction images labels_encoded)
    else PyDict.get d k.
Proof.
  intros Hk. unfold loss_iter.
  rewrite (PyDictFacts.get_set_same d (tag f)).
  assert (Hin : PyDict.get
                  (PyDict.set d (tag f)
                     (loss_call f prediction images labels_encoded)) k
                = if String.eqb (tag f) k
                  then Some (loss_call f prediction images labels_encoded)
                  else PyDict.get d k).
  { destruct (String.eqb_spec (tag f) k) as [->|Hne].
    - apply PyDictFacts.get_set_same.
    - now apply PyDictFacts.get_set_other. }
  destruct (PyDict.get (PyDict.set d (tag f) _) "total_loss"); [|exact Hin].
  rewrite PyDictFacts.get_set_other by congruence. exact Hin.
Qed.

Lemma loss_iter_NoDup d f :
  NoDup (PyDict.keys d) ->
  NoDup (PyDict.keys (loss_iter prediction images labels_encoded d f)).
Proof.
  intros Hd. unfold loss_iter.
  destruct (PyDict.get _ "total_loss"); [destruct (PyDict.get _ (tag f))|];
    repeat apply PyDictFacts.keys_set_NoDup; assumption.
Qed.

Lemma fold_has_total fns : forall d,
  PyDict.get d "total_loss" <> None ->
  PyDict.get (fold_left (loss_iter prediction images labels_encoded) fns d)
    "total_loss" <> None.
Proof.
  induction fns as [|f fns IH]; simpl; intros d Hd; [assumption|].
  apply IH. now apply loss_iter_has_total.
Qed.

Lemma fold_total fns : forall d t,
  tags_avoid_total fns ->
  PyDict.get d "total_loss" = Some t ->
  PyDict.get (fold_left (loss_iter prediction images labels_encoded) fns d)
    "total_loss"
  = Some (weighted_sum_from prediction images labels_encoded fns t).
Proof.
  induction fns as [|f fns IH]; simpl; intros d t Hall Hd; [assumption|].
  inversion Hall as [|? ? Hf Hall']; subst.
  apply IH; [assumption|]. now apply loss_iter_total.
Qed.

Lemma fold_other fns k : forall d,
  k <> "total_loss" ->
  PyDict.get (fold_left (loss_iter prediction images labels_encoded) fns d) k
  = match last_with_tag k fns with
    | Some f => Some (loss_call f prediction images labels_encoded)
    | None => PyDict.get d k
    end.
Proof.
  induction fns as [|f fns IH]; simpl; intros d Hk; [reflexivity|].
  rewrite IH by assumption.
  destruct (last_with_tag k fns); [reflexivity|].
  rewrite loss_iter_other by assumption.
  destruct (String.eqb (tag f) k); reflexivity.
Qed.

Lemma fold_NoDup fns : forall d,
  NoDup (PyDict.keys d) ->
  NoDup (PyDict.keys
           (fold_left (loss_iter prediction images labels_encoded) fns d)).
Proof.
  induction fns as [|f fns IH]; simpl; intros d Hd; [assumption|].
  apply IH. now apply loss_iter_NoDup.
Qed.

(** The loop of [model_step] never raises and leaves [self] alone. *)
Lemma loop_returns fns : forall d (self : CaptchaModule),
  PyDict.get d "total_loss" <> None ->
  for_fold fns
    (fun losses loss_fn =>
       let losses :=
         PyDict.set losses (tag loss_fn)
           (loss_call loss_fn prediction images labels_encoded) in
       total <- getitem losses "total_loss" ;;
       value <- getitem losses (tag loss_fn) ;;
       ret (PyDict.set losses "total_loss"
              (add total (mul value (weight loss_fn)))))
    d self
  = Returned (fold_left (loss_iter prediction images labels_encoded) fns d)
      self [].
Proof.
  induction fns as [|f fns IH]; intros d self Hd; [reflexivity|].
  pose proof (loss_iter_has_total d f Hd) as Hnext.
  specialize (IH (loss_iter prediction images labels_encoded d f) self Hnext).
  simpl. unfold bind at 1.
  unfold loss_iter in *. cbn zeta in *.
  unfold bind at 1. unfold getitem at 1.
  destruct (PyDict.get (PyDict.set d (tag f) _) "total_loss") as [t|] eqn:Et.
  - unfold ret at 1. unfold bind at 1. unfold getitem at 1.
    rewrite (PyDictFacts.get_set_same d (tag f)) in *.
    unfold ret at 1. unfold ret at 1. simpl.
    rewrite IH. reflexivity.
  - exfalso.
    destruct (String.eqb_spec (tag f) "total_loss") as [Ht|Ht].
    + rewrite Ht, PyDictFacts.get_set_same in Et. discriminate.
    + rewrite PyDictFacts.get_set_other in Et by assumption. contradiction.
Qed.
End Loop.

Lemma last_with_tag_none k fns :
  Forall (fun f => tag f <> k) fns -> last_with_tag k fns = None.
Proof.
  induction 1 as [|f fns Hf _ IH]; simpl; [reflexivity|].
  rewrite IH. destruct (String.eqb_spec (tag f) k); [contradiction|reflexivity].
Qed.

Lemma last_with_tag_split before g after :
  Forall (fun f => tag f <> tag g) after ->
  last_with_tag (tag g) (before ++ g :: after) = Some g.
Proof.
  intros Hafter. induction before as [|f before IH]; simpl.
  - rewrite (last_with_tag_none _ _ Hafter). now rewrite String.eqb_refl.
  - now rewrite IH.
Qed.

Lemma last_with_tag_In f fns :
  In f fns -> last_with_tag (tag f) fns <> None.
Proof.
  induction fns as [|g fns IH]; simpl; [intros []|].
  intros [->|Hin].
  - destruct (last_with_tag (tag f) fns); [discriminate|].
    rewrite String.eqb_refl. discriminate.
  - specialize (IH Hin).
    destruct (last_with_tag (tag f) fns); [discriminate | contradiction].
Qed.

Lemma last_with_tag_Some k fns g :
  last_with_tag k fns = Some g -> In g fns /\ tag g = k.
Proof.
  induction fns as [|f fns IH]; simpl; [discriminate|].
  destruct (last_with_tag k fns) as [g'|].
  - intros Hg. destruct (IH Hg). auto.
  - destruct (String.eqb_spec (tag f) k); [|discriminate].
    intros Hg. inversion Hg; subst. auto.
Qed.

Lemma model_losses_NoDup (self : CaptchaModule) (batch : Batch) :
  NoDup (PyDict.keys (model_losses self batch)).
Proof.
  unfold model_losses. apply fold_NoDup. simpl.
  constructor; [intros [] | constructor].
Qed.

Lemma model_losses_has_total (self : CaptchaModule) (batch : Batch) :
  PyDict.get (model_losses self batch) "total_loss" <> None.
Proof.
  unfold model_losses. apply fold_has_total. simpl. discriminate.
Qed.

Lemma model_losses_total (self : CaptchaModule) (batch : Batch) :
  tags_avoid_total (loss_fns self) ->
  PyDict.get (model_losses self batch) "total_loss"
  = Some (weighted_sum (net_call (net self) (fst batch)) (fst batch)
            (snd batch) (loss_fns self)).
Proof.
  intros Hall. unfold model_losses, weighted_sum.
  apply fold_total; [assumption | reflexivity].
Qed.

Lemma model_losses_tag (self : CaptchaModule) (batch : Batch) k :
  k <> "total_loss" ->
  PyDict.get (model_losses self batch) k
  = option_map
      (fun f => loss_call f (net_call (net self) (fst batch)) (fst batch)
                  (snd batch))
      (last_with_tag k (loss_fns self)).
Proof.
  intros Hk. unfold model_losses. rewrite fold_other by assumption.
  destruct (last_with_tag k (loss_fns self)); [reflexivity|].
  cbn [PyDict.set PyDict.get option_map].
  destruct (String.eqb_spec "total_loss" k); [|reflexivity].
  subst k. contradiction.
Qed.

(** The keys of the mapping are ["total_loss"] and the configured tags. *)
Lemma model_losses_keys (self : CaptchaModule) (batch : Batch) k v :
  In (k, v) (model_losses self batch) ->
  k = "total_loss" \/ exists f, In f (loss_fns self) /\ tag f = k.
Proof.
  intros Hin.
  apply PyDictFacts.In_get in Hin; [|apply model_losses_NoDup].
  destruct (String.eqb_spec k "total_loss") as [Hk|Hk]; [now left|right].
  rewrite model_losses_tag in Hin by assumption.
  destruct (last_with_tag k (loss_fns self)) as [g|] eqn:Hg; [|discriminate].
  exists g. now apply last_with_tag_Some.
Qed.

(** [model_step] always returns: the dictionary of [model_losses], the
    prediction and the two halves of the batch; it emits nothing and does
    not change the instance. *)
Lemma model_step_returns (self : CaptchaModule) (batch : Batch) :
  model_step batch self
  = Returned (model_losses self batch, net_call (net self) (fst batch),
              fst batch, snd batch) self [].
Proof.
  destruct batch as [images labels_encoded].
  unfold model_step, model_losses, forward. simpl.
  unfold bind at 1. unfold bind at 1. unfold get_self at 1. unfold ret at 1.
  unfold bind at 1. unfold get_self at 1.
  unfold bind at 1.
  rewrite loop_returns.
  - reflexivity.
  - simpl. discriminate.
Qed.
End Aggregator.

(** ** What the callbacks do *)

Section Runs.
Context {R : Type} `{Scalar R} `{Collaborators R}.

Lemma for_each_emit {X} (g : X -> Event) (body : X -> M unit) (xs : list X)
    (self : CaptchaModule) :
  (forall x, body x = emit (g x)) ->
  for_each xs body self = Returned tt self (map g xs).
Proof.
  intros Hbody. induction xs as [|x xs IH]; [reflexivity|].
  simpl. unfold bind. rewrite Hbody. unfold emit at 1. rewrite IH.
  reflexivity.
Qed.

Lemma log_loop (prefix : string) (d : PyDict.t R) (self : CaptchaModule) :
  for_each (PyDict.items d)
    (fun '(loss_name, loss_value) =>
       emit (Log (prefix ++ loss_name) loss_value (Some false) (Some true) true))
    self
  = Returned tt self (map (log_entry prefix) d).
Proof.
  apply for_each_emit. intros [k v]. reflexivity.
Qed.

Lemma training_step_run (self : CaptchaModule) (batch : Batch) (batch_idx : Z) :
  let losses := model_losses self batch in
  training_step batch batch_idx self
  = Returned (PyDict.get losses "total_loss")
      (set_train_loss
         (metric_update (train_loss self) (PyDict.get losses "total_loss")) self)
      (map (log_entry "train/") losses).
Proof.
  intros losses. unfold training_step.
  unfold bind at 1. rewrite model_step_returns. fold losses.
  unfold bind at 1. unfold modify at 1.
  unfold bind at 1. rewrite log_loop.
  unfold ret. simpl. now rewrite app_nil_r.
Qed.

Lemma validation_step_run (self : CaptchaModule) (batch : Batch) (batch_idx : Z) :
  let losses := model_losses self batch in
  validation_step batch batch_idx self
  = Returned tt
      (set_val_loss
         (metric_update (val_loss self) (PyDict.get losses "total_loss")) self)
      (map (log_entry "val/") losses
       ++ (if batch_idx mod 100 =? 0 then visualization self batch else [])).
Proof.
  intros losses. unfold validation_step.
  unfold bind at 1. rewrite model_step_returns. fold losses.
  unfold bind at 1. unfold modify at 1.
  unfold bind at 1. rewrite log_loop.
  destruct (batch_idx mod 100 =? 0).
  - unfold visualization, bind, get_self, emit. cbn.
    destruct (visualize_prediction (net self) (device self) (fst batch)
                (snd batch)) as [fig accuracy].
    reflexivity.
  - unfold ret. simpl. reflexivity.
Qed.

Lemma test_step_run (self : CaptchaModule) (batch : Batch) (batch_idx : Z) :
  let losses := model_losses self batch in
  test_step batch batch_idx self
  = Returned tt
      (set_test_loss
         (metric_update (test_loss self) (PyDict.get losses "total_loss"))
         (set_counts
            (get_accuracy (net self) (device self) (fst batch) (snd batch))
            self))
      (GetAccuracy (net self) (device self) (fst batch) (snd batch)
       :: map (log_entry "test/") losses).
Proof.
  intros losses. unfold test_step.
  unfold bind at 1. rewrite model_step_returns. fold losses.
  unfold bind at 1. unfold get_self at 1.
  unfold bind at 1. unfold emit at 1.
  unfold bind at 1. unfold modify at 1.
  unfold bind at 1. unfold modify at 1.
  rewrite log_loop. reflexivity.
Qed.

(** A run of test steps returns, keeps the network and the device, and
    leaves in the counters what the visualizer said of the last batch. *)
Lemma test_steps_run (batches : list Batch) :
  forall (self : CaptchaModule) (batch_idx : Z),
  exists self' out,
    test_steps batches batch_idx self = Returned tt self' out
    /\ net self' = net self
    /\ device self' = device self
    /\ (correct_count self', total_count self')
       = match rev batches with
         | [] => (correct_count self, total_count self)
         | last :: _ =>
             get_accuracy (net self) (device self) (fst last) (snd last)
         end.
Proof.
  induction batches as [|b rest IH]; intros self batch_idx.
  - exists self, []. repeat split; reflexivity.
  - simpl test_steps. unfold bind. rewrite test_step_run.
    destruct (IH (set_test_loss
                    (metric_update (test_loss self)
                       (PyDict.get (model_losses self b) "total_loss"))
                    (set_counts
                       (get_accuracy (net self) (device self) (fst b) (snd b))
                       self)) (batch_idx + 1))
      as (self' & out & Hrun & Hnet & Hdev & Hcnt).
    rewrite Hrun. eexists. eexists. split; [reflexivity|].
    split; [exact Hnet|]. split; [exact Hdev|].
    rewrite Hcnt. simpl rev.
    destruct (rev rest) as [|l ls] eqn:Erev; simpl.
    + destruct (get_accuracy (net self) (device self) (fst b) (snd b)).
      reflexivity.
    + reflexivity.
Qed.

Lemma on_test_epoch_end_raises (self : CaptchaModule) :
  total_count self = 0 ->
  on_test_epoch_end self = Raised ZeroDivisionError self [].
Proof.
  intros Hz. unfold on_test_epoch_end, bind, get_self, truediv.
  rewrite Hz. reflexivity.
Qed.

Lemma on_test_epoch_end_run (self : CaptchaModule) :
  total_count self <> 0 ->
  on_test_epoch_end self
  = Returned tt self
      [Log "Test Dataset Accuracy"
         (mul (div (of_int (correct_count self)) (of_int (total_count self)))
            (of_int 100))
         None None false].
Proof.
  intros Hnz. unfold on_test_epoch_end, bind, get_self, truediv.
  destruct (Z.eqb_spec (total_count self) 0); [contradiction|reflexivity].
Qed.

Lemma setup_run (self : CaptchaModule) (stage : string) :
  setup stage self
  = Returned tt
      (if hp_compile (hparams self) && String.eqb stage "fit"
       then set_net (torch_compile (net self)) self else self)
      [].
Proof.
  unfold setup, bind, get_self.
  destruct (hp_compile (hparams self) && String.eqb stage "fit"); reflexivity.
Qed.
End Runs.

(** ** The properties of the specification *)

Section Claims.
Context {R : Type} `{Scalar R} `{Collaborators R}.

(** C1 (amended).  For every batch and every list of loss functions none of
    which is tagged ["total_loss"], [model_step] returns a mapping whose
    [total_loss] entry is the sum, added up from [0.0] in list order, of
    the value each function returns on (prediction, images,
    labels_encoded) times its weight; for the empty list it is [0.0]. *)
Theorem model_step_total_loss (self : CaptchaModule) (batch : Batch) :
  tags_avoid_total (loss_fns self) ->
  exists losses,
    model_step batch self
    = Returned (losses, net_call (net self) (fst batch), fst batch, snd batch)
        self []
    /\ PyDict.get losses "total_loss"
       = Some (weighted_sum (net_call (net self) (fst batch)) (fst batch)
                 (snd batch) (loss_fns self))
    /\ (loss_fns self = [] -> PyDict.get losses "total_loss" = Some fzero).
Proof.
  intros Hall. exists (model_losses self batch).
  split; [apply model_step_returns|].
  split; [now apply model_losses_total|].
  intros Hnil. rewrite model_losses_total by assumption.
  rewrite Hnil. reflexivity.
Qed.

(** C10 (amended).  For every list of loss functions none of which is
    tagged ["total_loss"]: the mapping of [model_step] has one entry per
    key, under a tag it holds the value of the last function of the list
    with that tag, and [total_loss] is the weighted sum over the whole
    list, the overwritten functions included. *)
Theorem model_step_shared_tags (self : CaptchaModule) (batch : Batch) :
  tags_avoid_total (loss_fns self) ->
  exists losses,
    let prediction := net_call (net self) (fst batch) in
    model_step batch self
    = Returned (losses, prediction, fst batch, snd batch) self []
    /\ NoDup (PyDict.keys losses)
    /\ (forall before g after,
          loss_fns self = before ++ g :: after ->
          Forall (fun f => tag f <> tag g) after ->
          PyDict.get losses (tag g)
          = Some (loss_call g prediction (fst batch) (snd batch)))
    /\ PyDict.get losses "total_loss"
       = Some (weighted_sum prediction (fst batch) (snd batch)
                 (loss_fns self)).
Proof.
  intros Hall. exists (model_losses self batch). cbn zeta.
  split; [apply model_step_returns|].
  split; [apply model_losses_NoDup|].
  split; [|now apply model_losses_total].
  intros before g after Hsplit Hafter.
  assert (Hg : tag g <> "total_loss").
  { unfold tags_avoid_total in Hall. rewrite Forall_forall in Hall.
    apply Hall. rewrite Hsplit. apply in_or_app. right. now left. }
  rewrite model_losses_tag by assumption.
  rewrite Hsplit, last_with_tag_split by assumption. reflexivity.
Qed.

(** C3.  [test_step] returns and stores in [correct_count] and
    [total_count] exactly the pair [get_accuracy] gives for its batch,
    whatever the counters held before; after any run of test steps that
    ends with a batch, the counters are that last batch's pair. *)
Theorem test_step_overwrites_counts :
  (forall (self : CaptchaModule) (batch : Batch) (batch_idx : Z),
     exists self' out,
       test_step batch batch_idx self = Returned tt self' out
       /\ (correct_count self', total_count self')
          = get_accuracy (net self) (device self) (fst batch) (snd batch))
  /\ (forall (self : CaptchaModule) (batches : list Batch) (last : Batch)
        (batch_idx : Z),
        exists self' out,
          test_steps (batches ++ [last]) batch_idx self = Returned tt self' out
          /\ (correct_count self', total_count self')
             = get_accuracy (net self) (device self) (fst last) (snd last)).
Proof.
  split.
  - intros self batch batch_idx. rewrite test_step_run.
    eexists. eexists. split; [reflexivity|]. simpl.
    now destruct (get_accuracy (net self) (device self) (fst batch) (snd batch)).
  - intros self batches last batch_idx.
    destruct (test_steps_run (batches ++ [last]) self batch_idx)
      as (self' & out & Hrun & _ & _ & Hcnt).
    exists self', out. split; [exact Hrun|].
    rewrite Hcnt, rev_app_distr. reflexivity.
Qed.

(** C4.  [configure_optimizers] returns, without touching the instance, a
    dictionary whose only key is ["optimizer"] when the scheduler is
    [None]; with a scheduler factory the keys are ["optimizer"] and
    ["lr_scheduler"], the latter a dictionary with the scheduler built on
    the optimizer, monitor ["val/total_loss"], interval ["epoch"] and
    frequency 1.  The optimizer is the factory applied to the parameters. *)
Theorem configure_optimizers_dict (self : CaptchaModule) :
  exists conf,
    configure_optimizers self = Returned conf self []
    /\ PyDict.get conf "optimizer"
       = Some (VOptimizer (hp_optimizer (hparams self) (parameters (net self))))
    /\ (hp_scheduler (hparams self) = None ->
        PyDict.keys conf = ["optimizer"])
    /\ (forall make_scheduler,
          hp_scheduler (hparams self) = Some make_scheduler ->
          PyDict.keys conf = ["optimizer"; "lr_scheduler"]
          /\ exists entry,
               PyDict.get conf "lr_scheduler" = Some (VDict entry)
               /\ PyDict.keys entry
                  = ["scheduler"; "monitor"; "interval"; "frequency"]
               /\ PyDict.get entry "scheduler"
                  = Some (VScheduler
                            (make_scheduler
                               (hp_optimizer (hparams self)
                                  (parameters (net self)))))
               /\ PyDict.get entry "monitor" = Some (VStr "val/total_loss")
               /\ PyDict.get entry "interval" = Some (VStr "epoch")
               /\ PyDict.get entry "frequency" = Some (VInt 1)).
Proof.
  unfold configure_optimizers, bind, get_self.
  destruct (hp_scheduler (hparams self)) as [mk|] eqn:Hs.
  - eexists. split; [reflexivity|]. split; [reflexivity|].
    split; [discriminate|].
    intros mk' Hmk. inversion Hmk; subst mk'.
    split; [reflexivity|].
    eexists. split; [reflexivity|]. repeat split.
  - eexists. split; [reflexivity|]. split; [reflexivity|].
    split; [reflexivity|]. discriminate.
Qed.

(** C5.  [validation_step] returns; its calls are the logging calls of the
    loss mapping followed, exactly when [batch_idx mod 100 = 0], by the
    visualizer call, [add_figure], [add_scalar] and the log of
    ["val/Accuracy"]; on any other index nothing follows the loss logs, and
    a visualizer, figure or scalar call occurs if and only if
    [batch_idx mod 100 = 0]. *)
Theorem validation_step_visualizes_every_100 (self : CaptchaModule)
    (batch : Batch) (batch_idx : Z) :
  exists self' out,
    validation_step batch batch_idx self = Returned tt self' out
    /\ (batch_idx mod 100 = 0 ->
        out = map (log_entry "val/") (PyDict.items (model_losses self batch))
              ++ visualization self batch)
    /\ (batch_idx mod 100 <> 0 ->
        out = map (log_entry "val/") (PyDict.items (model_losses self batch)))
    /\ (existsb is_visualization out = true <-> batch_idx mod 100 = 0).
Proof.
  rewrite validation_step_run. eexists. eexists.
  split; [reflexivity|].
  assert (Hlogs : existsb is_visualization
                    (map (log_entry "val/") (model_losses self batch)) = false).
  { induction (model_losses self batch) as [|e d IH]; [reflexivity|exact IH]. }
  destruct (Z.eqb_spec (batch_idx mod 100) 0) as [Hz|Hnz].
  - split; [reflexivity|]. split; [contradiction|].
    rewrite existsb_app, Hlogs. simpl. tauto.
  - rewrite app_nil_r.
    split; [contradiction|]. split; [reflexivity|].
    rewrite Hlogs. split; [discriminate | contradiction].
Qed.

(** When no loss function is tagged ["Accuracy"], a logging call under the
    name ["val/Accuracy"] occurs in [validation_step] if and only if
    [batch_idx mod 100 = 0]. *)
Lemma val_accuracy_logged_when_visualized (self : CaptchaModule)
    (batch : Batch) (batch_idx : Z) :
  Forall (fun f => tag f <> "Accuracy") (loss_fns self) ->
  exists self' out,
    validation_step batch batch_idx self = Returned tt self' out
    /\ ((exists value on_step on_epoch prog_bar,
           In (Log "val/Accuracy" value on_step on_epoch prog_bar) out)
        <-> batch_idx mod 100 = 0).
Proof.
  intros Htags. rewrite validation_step_run. eexists. eexists.
  split; [reflexivity|].
  destruct (Z.eqb_spec (batch_idx mod 100) 0) as [Hz|Hnz].
  - split; [auto|]. intros _.
    eexists. eexists. eexists. eexists.
    apply in_or_app. right. unfold visualization.
    right. right. right. left. reflexivity.
  - split; [|contradiction].
    intros (value & on_step & on_epoch & prog_bar & Hin). exfalso.
    rewrite app_nil_r in Hin. apply in_map_iff in Hin.
    destruct Hin as ([k v] & Hlog & Hin).
    unfold log_entry in Hlog. simpl in Hlog.
    injection Hlog as Hname _ _ _.
    destruct (model_losses_keys _ _ _ _ Hin) as [->|(f & Hf & <-)].
    + discriminate.
    + rewrite Forall_forall in Htags. exact (Htags f Hf Hname).
Qed.

(** C6.  On every batch, [training_step], [validation_step] and
    [test_step] return and log each entry of the mapping of [model_step],
    in its order, under the name prefixed with ["train/"], ["val/"] or
    ["test/"], with [on_step=False] and [on_epoch=True]; the mapping has
    [total_loss] and the tag of every configured loss function. *)
Theorem step_handlers_log_losses (self : CaptchaModule) (batch : Batch)
    (batch_idx : Z) :
  exists losses,
    let logs prefix :=
      map (fun entry : string * R =>
             Log (prefix ++ fst entry) (snd entry) (Some false) (Some true) true)
        (PyDict.items losses) in
    model_step batch self
    = Returned (losses, net_call (net self) (fst batch), fst batch, snd batch)
        self []
    /\ (exists self',
          training_step batch batch_idx self
          = Returned (PyDict.get losses "total_loss") self' (logs "train/"))
    /\ (exists self' rest,
          validation_step batch batch_idx self
          = Returned tt self' (logs "val/" ++ rest)
          /\ forall e, In e rest ->
               match e with
               | Log _ _ on_step on_epoch _ =>
                   on_step = Some false /\ on_epoch = Some true
               | _ => True
               end)
    /\ (exists self',
          test_step batch batch_idx self
          = Returned tt self'
              (GetAccuracy (net self) (device self) (fst batch) (snd batch)
               :: logs "test/"))
    /\ (forall name value,
          PyDict.get losses name = Some value ->
          In (name, value) (PyDict.items losses))
    /\ PyDict.get losses "total_loss" <> None
    /\ (forall f, In f (loss_fns self) -> PyDict.get losses (tag f) <> None).
Proof.
  exists (model_losses self batch). cbn zeta.
  split; [apply model_step_returns|].
  split; [rewrite training_step_run; eexists; reflexivity|].
  split.
  { rewrite validation_step_run. eexists. eexists. split; [reflexivity|].
    intros e He. destruct (batch_idx mod 100 =? 0); [|destruct He].
    unfold visualization in He. simpl in He.
    destruct He as [<-|[<-|[<-|[<-|[]]]]]; auto. }
  split; [rewrite test_step_run; eexists; reflexivity|].
  split; [intros name value; apply PyDictFacts.get_In|].
  split; [apply model_losses_has_total|].
  intros f Hf.
  destruct (String.eqb_spec (tag f) "total_loss") as [->|Hne].
  - apply model_losses_has_total.
  - rewrite model_losses_tag by assumption.
    pose proof (last_with_tag_In f _ Hf).
    destruct (last_with_tag (tag f) (loss_fns self)); [discriminate|contradiction].
Qed.
(** C7 (amended).  [on_train_start] resets the three validation
    accumulators, [val_loss], [val_acc] and [val_acc_best], emits nothing,
    and leaves the training and test accumulators and every other field as
    they were. *)
Theorem on_train_start_resets_validation_metrics (self : CaptchaModule) :
  exists self',
    on_train_start self = Returned tt self' []
    /\ val_loss self' = [] /\ val_acc self' = [] /\ val_acc_best self' = []
    /\ train_loss self' = train_loss self
    /\ test_loss self' = test_loss self
    /\ train_acc self' = train_acc self
    /\ test_acc self' = test_acc self
    /\ net self' = net self /\ loss_fns self' = loss_fns self
    /\ hparams self' = hparams self
    /\ correct_count self' = correct_count self
    /\ total_count self' = total_count self.
Proof.
  eexists. split; [reflexivity|]. simpl. repeat split.
Qed.

(** C8.  [setup] returns and emits nothing; it stores the compiled network
    in [net] when the compile flag is set and the stage is ["fit"], and
    leaves the instance as it was when the flag is off or the stage is
    anything else, ["validate"], ["test"] and ["predict"] in particular. *)
Theorem setup_compiles_only_for_fit (self : CaptchaModule) (stage : string) :
  (hp_compile (hparams self) = true -> stage = "fit" ->
   setup stage self = Returned tt (set_net (torch_compile (net self)) self) []
   /\ net (set_net (torch_compile (net self)) self) = torch_compile (net self))
  /\ (hp_compile (hparams self) = false \/ stage <> "fit" ->
      setup stage self = Returned tt self [])
  /\ (In stage ["validate"; "test"; "predict"] ->
      setup stage self = Returned tt self []).
Proof.
  rewrite setup_run.
  assert (Hother : hp_compile (hparams self) = false \/ stage <> "fit" ->
                   hp_compile (hparams self) && String.eqb stage "fit" = false).
  { intros [Hc|Hs].
    - now rewrite Hc.
    - destruct (String.eqb_spec stage "fit"); [contradiction|].
      apply andb_false_r. }
  split; [|split].
  - intros Hc ->. rewrite Hc. simpl. split; reflexivity.
  - intros Hcase. now rewrite (Hother Hcase).
  - intros Hstage. rewrite Hother; [reflexivity|].
    right. simpl in Hstage.
    destruct Hstage as [<-|[<-|[<-|[]]]]; discriminate.
Qed.

(** C9.  The two counters are 0 after construction, and no callback other
    than [test_step] changes them.  [on_test_epoch_end] raises
    [ZeroDivisionError] exactly when the stored [total_count] is 0, and
    returns otherwise: it raises on a fresh instance, and after a run of
    test steps whose last batch has a total of 0. *)
Theorem on_test_epoch_end_divides_by_total :
  (forall net0 optimizer fns scheduler compile dev,
     correct_count (init net0 optimizer fns scheduler compile dev) = 0
     /\ total_count (init net0 optimizer fns scheduler compile dev) = 0)
  /\ (forall batch batch_idx,
        keeps_counts (model_step batch)
        /\ keeps_counts (training_step batch batch_idx)
        /\ keeps_counts (validation_step batch batch_idx))
  /\ (keeps_counts on_train_start /\ keeps_counts on_train_epoch_end
      /\ keeps_counts on_validation_epoch_end /\ keeps_counts on_test_epoch_end
      /\ keeps_counts configure_optimizers
      /\ forall stage, keeps_counts (setup stage))
  /\ (forall self : CaptchaModule,
        total_count self = 0 <->
        on_test_epoch_end self = Raised ZeroDivisionError self [])
  /\ (forall self : CaptchaModule,
        total_count self <> 0 <->
        exists accuracy,
          on_test_epoch_end self
          = Returned tt self
              [Log "Test Dataset Accuracy" accuracy None None false])
  /\ (forall net0 optimizer fns scheduler compile dev,
        test_epoch [] (init net0 optimizer fns scheduler compile dev)
        = Raised ZeroDivisionError
            (init net0 optimizer fns scheduler compile dev) [])
  /\ (forall (self : CaptchaModule) batches last,
        snd (get_accuracy (net self) (device self) (fst last) (snd last)) = 0 ->
        exists self' out,
          test_epoch (batches ++ [last]) self
          = Raised ZeroDivisionError self' out).
Proof.
  split; [intros; split; reflexivity|].
  split.
  { intros batch batch_idx. split; [|split]; intros self.
    - rewrite model_step_returns. split; reflexivity.
    - rewrite training_step_run. split; reflexivity.
    - rewrite validation_step_run. split; reflexivity. }
  split.
  { split; [|split; [|split; [|split; [|split]]]].
    - intros self. split; reflexivity.
    - intros self. split; reflexivity.
    - intros self. split; reflexivity.
    - intros self.
      destruct (Z.eq_dec (total_count self) 0) as [Hz|Hnz].
      + rewrite on_test_epoch_end_raises by assumption. split; reflexivity.
      + rewrite on_test_epoch_end_run by assumption. split; reflexivity.
    - intros self. unfold configure_optimizers, bind, get_self.
      destruct (hp_scheduler (hparams self)); split; reflexivity.
    - intros stage self. rewrite setup_run.
      destruct (hp_compile (hparams self) && String.eqb stage "fit");
        split; reflexivity. }
  split.
  { intros self. split; [apply on_test_epoch_end_raises|].
    intros Hraise. destruct (Z.eq_dec (total_count self) 0) as [Hz|Hnz]; auto.
    rewrite on_test_epoch_end_run in Hraise by assumption. discriminate. }
  split.
  { intros self. split.
    - intros Hnz. rewrite on_test_epoch_end_run by assumption.
      eexists. reflexivity.
    - intros [accuracy Hrun] Hz.
      rewrite on_test_epoch_end_raises in Hrun by assumption. discriminate. }
  split; [reflexivity|].
  intros self batches last Hzero.
  destruct (test_steps_run (batches ++ [last]) self 0)
    as (self' & out & Hrun & _ & _ & Hcnt).
  rewrite rev_app_distr in Hcnt. simpl in Hcnt.
  unfold test_epoch, bind. rewrite Hrun.
  rewrite on_test_epoch_end_raises.
  - eexists. eexists. reflexivity.
  - change (total_count self') with (snd (correct_count self', total_count self')).
    now rewrite Hcnt.
Qed.
End Claims.

(** ** The accuracy of a test epoch *)

Section Accuracy.
Context {R : Type} `{Scalar R} `{Collaborators R}.

(** C2 (amended).  With a non-zero stored total, [on_test_epoch_end] logs
    under ["Test Dataset Accuracy"] the value
    [correct_count / total_count * 100] of the stored counters, computed in
    that order in the arithmetic of the scalars: the quotient first, then
    times 100; after a test epoch these are the counters of the last test
    batch. *)
Theorem test_epoch_end_accuracy_quotient_first :
  (forall self : CaptchaModule,
     total_count self <> 0 ->
     on_test_epoch_end self
     = Returned tt self
         [Log "Test Dataset Accuracy"
            (mul (div (of_int (correct_count self)) (of_int (total_count self)))
               (of_int 100))
            None None false])
  /\ (forall (self : CaptchaModule) batches last correct total,
        get_accuracy (net self) (device self) (fst last) (snd last)
        = (correct, total) ->
        total <> 0 ->
        exists self' out,
          test_epoch (batches ++ [last]) self
          = Returned tt self'
              (out ++ [Log "Test Dataset Accuracy"
                         (mul (div (of_int correct) (of_int total)) (of_int 100))
                         None None false])
          /\ (correct_count self', total_count self') = (correct, total)).
Proof.
  split.
  - intros self Hnz. now apply on_test_epoch_end_run.
  - intros self batches last correct total Hacc Hnz.
    destruct (test_steps_run (batches ++ [last]) self 0)
      as (self' & out & Hrun & _ & _ & Hcnt).
    rewrite rev_app_distr in Hcnt. simpl in Hcnt. rewrite Hacc in Hcnt.
    inversion Hcnt as [[Hc Ht]].
    unfold test_epoch, bind. rewrite Hrun.
    rewrite on_test_epoch_end_run by congruence.
    exists self', out. rewrite Hc, Ht. split; reflexivity.
Qed.
End Accuracy.

(** ** The callbacks on concrete inputs *)

Module Binary64Runs.
#[local] Existing Instance Demo.world_float.

Lemma float_eqb_neq (x y : float) :
  PrimFloat.eqb x x = true -> PrimFloat.eqb x y = false -> Some x <> Some y.
Proof.
  intros Hx Hxy Heq. assert (Hxy' : x = y) by congruence.
  rewrite <- Hxy' in Hxy. congruence.
Qed.

(** The example of the specification: weights 0.5 and 2.0, raw values 1.0
    and 3.0, total 6.5. *)
Lemma model_step_total_loss_two_losses :
  let self := Demo.module_with Demo.two_losses None false in
  tags_avoid_total (loss_fns self)
  /\ exists losses,
       model_step (R := float) Demo.batch_45_of_50 self
       = Returned (losses, 57%nat, 50%nat, 45%nat) self []
       /\ PyDict.get losses "total_loss" = Some 6.5%float.
Proof.
  cbn zeta.
  assert (Hall : tags_avoid_total
                   (loss_fns (Demo.module_with Demo.two_losses None false))).
  { apply tags_avoid_totalb_spec. reflexivity. }
  split; [exact Hall|].
  destruct (model_step_total_loss (Demo.module_with Demo.two_losses None false)
              Demo.batch_45_of_50 Hall) as (losses & Hrun & Htotal & _).
  exists losses. split; [exact Hrun|].
  rewrite Htotal. vm_compute. reflexivity.
Defined.

(** C1 as stated fails on a loss function tagged ["total_loss"]: with
    weight 2.0 and value 3.0 the function's value replaces the running
    total before its contribution is added, so [total_loss] is
    3.0 + 3.0 * 2.0 = 9.0, and the weighted sum is 6.0. *)
Lemma model_step_total_loss_reserved_tag :
  let self := Demo.module_with Demo.reserved_tag None false in
  exists losses,
    model_step (R := float) Demo.batch_45_of_50 self
    = Returned (losses, 57%nat, 50%nat, 45%nat) self []
    /\ PyDict.get losses "total_loss" = Some 9%float
    /\ weighted_sum 57%nat 50%nat 45%nat (loss_fns self) = 6%float
    /\ PyDict.get losses "total_loss"
       <> Some (weighted_sum 57%nat 50%nat 45%nat (loss_fns self)).
Proof.
  cbn zeta. exists [("total_loss", 9%float)].
  split; [vm_compute; reflexivity|].
  split; [reflexivity|].
  split; [vm_compute; reflexivity|].
  intros Heq. vm_compute in Heq.
  revert Heq. apply float_eqb_neq; reflexivity.
Qed.

(** Two functions under the tag ["ctc"]: the mapping keeps the value of the
    second, the total counts both. *)
Lemma model_step_shared_tags_ctc :
  let self := Demo.module_with Demo.same_tag None false in
  tags_avoid_total (loss_fns self)
  /\ exists losses,
       model_step (R := float) Demo.batch_45_of_50 self
       = Returned (losses, 57%nat, 50%nat, 45%nat) self []
       /\ PyDict.get losses "ctc" = Some 3%float
       /\ PyDict.get losses "total_loss" = Some 6.5%float.
Proof.
  cbn zeta.
  assert (Hall : tags_avoid_total
                   (loss_fns (Demo.module_with Demo.same_tag None false))).
  { apply tags_avoid_totalb_spec. reflexivity. }
  split; [exact Hall|].
  destruct (model_step_shared_tags (Demo.module_with Demo.same_tag None false)
              Demo.batch_45_of_50 Hall) as (losses & Hrun & _ & Hlast & Htotal).
  exists losses. split; [exact Hrun|]. split.
  - apply (Hlast [Demo.const_loss "ctc" 0.5%float 1%float]
             (Demo.const_loss "ctc" 2%float 3%float) []);
      [reflexivity | constructor].
  - rewrite Htotal. vm_compute. reflexivity.
Defined.

(** C10 as stated fails on two loss functions that share the tag
    ["total_loss"], with weight 1.0 and values 1.0 and 2.0: the entry under
    the shared tag is 4.0, neither the last function's value 2.0 nor the
    weighted sum 3.0 over the list. *)
Lemma model_step_shared_reserved_tag :
  let self := Demo.module_with Demo.reserved_tag_twice None false in
  exists losses,
    model_step (R := float) Demo.batch_45_of_50 self
    = Returned (losses, 57%nat, 50%nat, 45%nat) self []
    /\ PyDict.get losses "total_loss" = Some 4%float
    /\ option_map
         (fun f : @LossFn float Demo.world_float =>
            loss_call f 57%nat 50%nat 45%nat)
         (last_with_tag "total_loss" (loss_fns self)) = Some 2%float
    /\ weighted_sum 57%nat 50%nat 45%nat (loss_fns self) = 3%float
    /\ PyDict.get losses "total_loss" <> Some 2%float
    /\ PyDict.get losses "total_loss"
       <> Some (weighted_sum 57%nat 50%nat 45%nat (loss_fns self)).
Proof.
  cbn zeta. exists [("total_loss", 4%float)].
  split; [vm_compute; reflexivity|].
  split; [reflexivity|].
  split; [vm_compute; reflexivity|].
  split; [vm_compute; reflexivity|].
  split; intros Heq; vm_compute in Heq;
    revert Heq; apply float_eqb_neq; reflexivity.
Qed.

(** The same example in binary64: the logged value is 90.0. *)
Example test_epoch_45_of_50_binary64 :
  exists self',
    test_epoch (R := float) [Demo.batch_45_of_50]
      (Demo.module_with Demo.two_losses None false)
    = Returned tt self'
        [ GetAccuracy 7%nat tt 50%nat 45%nat;
          Log "test/total_loss" 6.5%float (Some false) (Some true) true;
          Log "test/ctc" 1%float (Some false) (Some true) true;
          Log "test/center" 3%float (Some false) (Some true) true;
          Log "Test Dataset Accuracy" 90%float None None false ].
Proof.
  eexists. vm_compute. reflexivity.
Qed.

(** In binary64 the order of the operations shows: the code divides first,
    so 29 correct answers of 100 are logged as [29 / 100 * 100], which
    rounds below 29, whereas [100 * 29 / 100] is 29. *)
Example test_epoch_29_of_100_binary64 :
  exists self' out accuracy,
    test_epoch (R := float) [Demo.batch_29_of_100]
      (Demo.module_with Demo.two_losses None false)
    = Returned tt self'
        (out ++ [Log "Test Dataset Accuracy" accuracy None None false])
    /\ accuracy = (29 / 100 * 100)%float
    /\ PrimFloat.ltb accuracy 29 = true
    /\ (100 * 29 / 100)%float = 29%float.
Proof.
  eexists. eexists (_ :: _ :: _ :: [_]). eexists.
  split; [vm_compute; reflexivity|].
  split; [vm_compute; reflexivity|].
  split; vm_compute; reflexivity.
Qed.

(** C7 as stated fails for the training accumulator: after one training
    step [train_loss] holds the total 6.5, and [on_train_start] leaves it
    there. *)
Lemma on_train_start_keeps_train_loss :
  let self0 := Demo.module_with Demo.two_losses None false in
  exists total self1 out self2,
    training_step (R := float) Demo.batch_45_of_50 0 self0
    = Returned total self1 out
    /\ train_loss self1 = [Some 6.5%float]
    /\ on_train_start self1 = Returned tt self2 []
    /\ train_loss self2 = [Some 6.5%float]
    /\ train_loss self2 <> metric_reset (train_loss self2).
Proof.
  cbn zeta. eexists. eexists. eexists. eexists.
  split; [vm_compute; reflexivity|].
  split; [vm_compute; reflexivity|].
  split; [vm_compute; reflexivity|].
  split; [vm_compute; reflexivity|].
  vm_compute. discriminate.
Qed.

(** Without a scheduler the dictionary has the optimizer only; with one it
    has the scheduler entry as well. *)
Lemma configure_optimizers_dict_runs :
  (exists conf,
     configure_optimizers (R := float)
       (Demo.module_with Demo.two_losses None false)
     = Returned conf (Demo.module_with Demo.two_losses None false) []
     /\ PyDict.keys conf = ["optimizer"])
  /\ (exists conf entry,
        configure_optimizers (R := float)
          (Demo.module_with Demo.two_losses (Some S) false)
        = Returned conf (Demo.module_with Demo.two_losses (Some S) false) []
        /\ PyDict.keys conf = ["optimizer"; "lr_scheduler"]
        /\ PyDict.get conf "lr_scheduler" = Some (VDict entry)
        /\ PyDict.get entry "scheduler" = Some (VScheduler 8%nat)
        /\ PyDict.get entry "monitor" = Some (VStr "val/total_loss")
        /\ PyDict.get entry "interval" = Some (VStr "epoch")
        /\ PyDict.get entry "frequency" = Some (VInt 1)).
Proof.
  split.
  - destruct (configure_optimizers_dict
                (Demo.module_with Demo.two_losses None false))
      as (conf & Hrun & _ & Hnone & _).
    exists conf. split; [exact Hrun | exact (Hnone eq_refl)].
  - destruct (configure_optimizers_dict
                (Demo.module_with Demo.two_losses (Some S) false))
      as (conf & Hrun & _ & _ & Hsome).
    destruct (Hsome S eq_refl)
      as (Hkeys & entry & Hentry & _ & Hsched & Hmon & Hint & Hfreq).
    exists conf, entry. repeat split; assumption.
Defined.

(** Batch 200 is visualized, batch 37 is not. *)
Lemma validation_step_runs :
  let self := Demo.module_with Demo.two_losses None false in
  (exists self' out,
     validation_step (R := float) Demo.batch_45_of_50 200 self
     = Returned tt self' out
     /\ existsb is_visualization out = true)
  /\ (exists self' out,
        validation_step (R := float) Demo.batch_45_of_50 37 self
        = Returned tt self' out
        /\ out = [ Log "val/total_loss" 6.5%float (Some false) (Some true) true;
                   Log "val/ctc" 1%float (Some false) (Some true) true;
                   Log "val/center" 3%float (Some false) (Some true) true ]).
Proof.
  cbn zeta. split.
  - destruct (validation_step_visualizes_every_100
                (Demo.module_with Demo.two_losses None false)
                Demo.batch_45_of_50 200)
      as (self' & out & Hrun & _ & _ & Hiff).
    exists self', out. split; [exact Hrun | exact (proj2 Hiff eq_refl)].
  - destruct (validation_step_visualizes_every_100
                (Demo.module_with Demo.two_losses None false)
                Demo.batch_45_of_50 37)
      as (self' & out & Hrun & _ & Hno & _).
    exists self', out. split; [exact Hrun|].
    rewrite Hno by discriminate. vm_compute. reflexivity.
Defined.

(** The tag of a configured loss function is a key of the mapping that the
    handlers log. *)
Lemma step_handlers_log_losses_runs :
  let self := Demo.module_with Demo.two_losses None false in
  exists losses,
    model_step (R := float) Demo.batch_45_of_50 self
    = Returned (losses, 57%nat, 50%nat, 45%nat) self []
    /\ (exists self',
          test_step Demo.batch_45_of_50 3 self
          = Returned tt self'
              (GetAccuracy 7%nat tt 50%nat 45%nat
               :: map (fun entry : string * float =>
                         Log ("test/" ++ fst entry) (snd entry)
                           (Some false) (Some true) true)
                    (PyDict.items losses)))
    /\ PyDict.get losses "center" <> None.
Proof.
  cbn zeta.
  destruct (step_handlers_log_losses
              (Demo.module_with Demo.two_losses None false)
              Demo.batch_45_of_50 3)
    as (losses & Hrun & _ & _ & Htest & _ & _ & Htags).
  exists losses. split; [exact Hrun|]. split; [exact Htest|].
  apply (Htags (Demo.const_loss "center" 2%float 3%float)).
  right. left. reflexivity.
Defined.

(** With the compile flag set, ["fit"] compiles the network 7 into 8 and
    ["test"] leaves it. *)
Lemma setup_runs :
  let self := Demo.module_with Demo.two_losses None true in
  (setup (R := float) "fit" self = Returned tt (set_net 8%nat self) []
   /\ net (set_net 8%nat self) = 8%nat)
  /\ setup (R := float) "test" self = Returned tt self [].
Proof.
  cbn zeta. split.
  - exact (proj1 (setup_compiles_only_for_fit
                    (Demo.module_with Demo.two_losses None true) "fit")
             eq_refl eq_refl).
  - apply (proj2 (proj2 (setup_compiles_only_for_fit
                           (Demo.module_with Demo.two_losses None true)
                           "test"))).
    simpl. right. left. reflexivity.
Defined.

(** A test epoch whose last batch has no sample raises. *)
Lemma test_epoch_empty_last_batch :
  exists self' out,
    test_epoch (R := float) ([Demo.batch_45_of_50] ++ [Demo.batch_empty])
      (Demo.module_with Demo.two_losses None false)
    = Raised ZeroDivisionError self' out.
Proof.
  exact (proj2 (proj2 (proj2 (proj2 (proj2 (proj2
           (on_test_epoch_end_divides_by_total (R := float)))))))
           (Demo.module_with Demo.two_losses None false)
           [Demo.batch_45_of_50] Demo.batch_empty eq_refl).
Defined.
End Binary64Runs.

Module AccuracyRuns.
#[local] Existing Instance Demo.world_float.

(** The example of the specification: 45 correct answers of 50 are logged
    as 90.0. *)
Lemma test_epoch_end_accuracy_45_of_50 :
  exists self' out,
    test_epoch (R := float) ([] ++ [Demo.batch_45_of_50])
      (Demo.module_with Demo.two_losses None false)
    = Returned tt self'
        (out ++ [Log "Test Dataset Accuracy" 90%float None None false])
    /\ (correct_count self', total_count self') = (45, 50).
Proof.
  exact (proj2 test_epoch_end_accuracy_quotient_first
           (Demo.module_with Demo.two_losses None false) []
           Demo.batch_45_of_50 45 50 eq_refl ltac:(discriminate)).
Defined.

(** C2 as stated fails in binary64: with 29 correct answers of 100 the
    code logs [29 / 100 * 100], which is 28.999999999999996, whereas
    [100 * 29 / 100] is 29.0. *)
Lemma test_epoch_end_accuracy_29_of_100 :
  exists self' out accuracy,
    test_epoch (R := float) [Demo.batch_29_of_100]
      (Demo.module_with Demo.two_losses None false)
    = Returned tt self'
        (out ++ [Log "Test Dataset Accuracy" accuracy None None false])
    /\ (correct_count self', total_count self') = (29, 100)
    /\ div (of_int (100 * 29)) (of_int 100) = 29%float
    /\ PrimFloat.ltb accuracy 29 = true
    /\ accuracy <> div (of_int (100 * 29)) (of_int 100).
Proof.
  eexists. eexists (_ :: _ :: _ :: [_]). eexists.
  split; [vm_compute; reflexivity|].
  split; [reflexivity|].
  split; [vm_compute; reflexivity|].
  split; [vm_compute; reflexivity|].
  intros Heq.
  assert (Hlt : PrimFloat.ltb (div (of_int (100 * 29)) (of_int 100)) 29 = true)
    by (rewrite <- Heq; vm_compute; reflexivity).
  vm_compute in Hlt. discriminate.
Qed.
End AccuracyRuns.

(** ** The order of the keys of a dictionary *)

Module PyDictOrder.
Section Order.
Context {V : Type}.

Lemma In_keys_get (d : PyDict.t V) k :
  In k (PyDict.keys d) <-> PyDict.get d k <> None.
Proof.
  induction d as [|[k' v'] d IH]; simpl.
  - split; [intros [] | intros Hn; now apply Hn].
  - destruct (String.eqb_spec k' k) as [->|Hk].
    + split; [discriminate | now left].
    + rewrite <- IH. split; [intros [Heq|Hin]; [contradiction|assumption] | now right].
Qed.

Lemma keys_set_present (d : PyDict.t V) k v :
  In k (PyDict.keys d) -> PyDict.keys (PyDict.set d k v) = PyDict.keys d.
Proof.
  induction d as [|[k' v'] d IH]; simpl; [intros []|].
  destruct (String.eqb_spec k' k) as [->|Hk]; [reflexivity|].
  intros [Heq|Hin]; [contradiction|]. simpl. now rewrite IH.
Qed.

Lemma set_absent (d : PyDict.t V) k v :
  ~ In k (PyDict.keys d) -> PyDict.set d k v = d ++ [(k, v)].
Proof.
  induction d as [|[k' v'] d IH]; simpl; [reflexivity|].
  intros Hnot. destruct (String.eqb_spec k' k) as [->|Hk].
  - exfalso. apply Hnot. now left.
  - rewrite IH; [reflexivity|]. intros Hin. apply Hnot. now right.
Qed.

Lemma keys_set (d : PyDict.t V) k v :
  PyDict.keys (PyDict.set d k v)
  = if in_dec string_dec k (PyDict.keys d)
    then PyDict.keys d else PyDict.keys d ++ [k].
Proof.
  destruct (in_dec string_dec k (PyDict.keys d)) as [Hin|Hnot].
  - now apply keys_set_present.
  - rewrite set_absent by assumption. unfold PyDict.keys.
    now rewrite map_app.
Qed.
End Order.

Lemma In_first_occurrences k l : In k (first_occurrences l) <-> In k l.
Proof.
  unfold first_occurrences.
  rewrite <- in_rev, nodup_In, <- in_rev. reflexivity.
Qed.

Lemma first_occurrences_snoc l k :
  first_occurrences (l ++ [k])
  = if in_dec string_dec k l
    then first_occurrences l else first_occurrences l ++ [k].
Proof.
  unfold first_occurrences. rewrite rev_app_distr. simpl.
  destruct (in_dec string_dec k (rev l)) as [Hin|Hnot];
    destruct (in_dec string_dec k l) as [Hin'|Hnot']; try reflexivity.
  - exfalso. apply Hnot'. now apply in_rev.
  - exfalso. apply Hnot. now apply in_rev in Hin'.
Qed.

Lemma first_occurrences_NoDup l : NoDup l -> first_occurrences l = l.
Proof.
  intros Hnd. unfold first_occurrences.
  rewrite nodup_fixed_point; [apply rev_involutive|].
  now apply NoDup_rev.
Qed.
End PyDictOrder.

(** ** The shape of the loss mapping *)

Section Mapping.
Context {R : Type} `{Scalar R} `{Collaborators R}.

Section OneBatch.
Variables (prediction : Prediction) (images : Images) (labels_encoded : Labels).

Lemma loss_iter_keys d f :
  In "total_loss" (PyDict.keys d) ->
  PyDict.keys (loss_iter prediction images labels_encoded d f)
  = PyDict.keys
      (PyDict.set d (tag f) (loss_call f prediction images labels_encoded)).
Proof.
  intros Htotal. unfold loss_iter.
  set (d1 := PyDict.set d (tag f) _).
  assert (Hin1 : In "total_loss" (PyDict.keys d1)).
  { subst d1. rewrite PyDictOrder.keys_set.
    destruct (in_dec string_dec (tag f) (PyDict.keys d)); [assumption|].
    apply in_or_app. now left. }
  destruct (PyDict.get d1 "total_loss") as [t|]; [|reflexivity].
  destruct (PyDict.get d1 (tag f)) as [v|]; [|reflexivity].
  now apply PyDictOrder.keys_set_present.
Qed.

Lemma fold_keys fns : forall d l,
  PyDict.keys d = first_occurrences l ->
  In "total_loss" l ->
  PyDict.keys (fold_left (loss_iter prediction images labels_encoded) fns d)
  = first_occurrences (l ++ map tag fns).
Proof.
  induction fns as [|f fns IH]; intros d l Hkeys Htotal; simpl.
  - now rewrite app_nil_r.
  - replace (l ++ tag f :: map tag fns) with ((l ++ [tag f]) ++ map tag fns)
      by (rewrite <- app_assoc; reflexivity).
    apply IH; [|apply in_or_app; now left].
    rewrite loss_iter_keys
      by (rewrite Hkeys; now apply PyDictOrder.In_first_occurrences).
    rewrite PyDictOrder.keys_set, PyDictOrder.first_occurrences_snoc, Hkeys.
    destruct (in_dec string_dec (tag f) (first_occurrences l)) as [Hin|Hnot];
      destruct (in_dec string_dec (tag f) l) as [Hin'|Hnot']; try reflexivity.
    + exfalso. apply Hnot'. now apply PyDictOrder.In_first_occurrences.
    + exfalso. apply Hnot. now apply PyDictOrder.In_first_occurrences.
Qed.

(** With tags that are pairwise distinct and differ from ["total_loss"],
    every pass of the loop appends one entry and updates the first. *)
Lemma fold_distinct fns : forall t entries,
  tags_avoid_total fns ->
  NoDup (map tag fns) ->
  ~ In "total_loss" (PyDict.keys entries) ->
  (forall f, In f fns -> ~ In (tag f) (PyDict.keys entries)) ->
  fold_left (loss_iter prediction images labels_encoded) fns
    (("total_loss", t) :: entries)
  = ("total_loss", weighted_sum_from prediction images labels_encoded fns t)
    :: entries ++ map (loss_entry prediction images labels_encoded) fns.
Proof.
  induction fns as [|f fns IH]; intros t entries Hall Hnd Htot Hfresh; simpl.
  - now rewrite app_nil_r.
  - inversion Hall as [|? ? Hf Hall']; subst.
    inversion Hnd as [|? ? Hnotin Hnd']; subst.
    assert (Hstep :
      loss_iter prediction images labels_encoded (("total_loss", t) :: entries) f
      = ("total_loss",
         add t (mul (loss_call f prediction images labels_encoded) (weight f)))
        :: (entries ++ [loss_entry prediction images labels_encoded f])).
    { unfold loss_iter.
      rewrite PyDictOrder.set_absent.
      2:{ simpl. intros [Heq|Hin]; [now apply Hf|].
          apply (Hfresh f); [now left | assumption]. }
      cbn [app PyDict.get]. rewrite String.eqb_refl.
      destruct (String.eqb_spec "total_loss" (tag f)) as [Heq|_];
        [now elim Hf|].
      assert (Hget : PyDict.get
                       (entries ++ [(tag f, loss_call f prediction images
                                              labels_encoded)]) (tag f)
                     = Some (loss_call f prediction images labels_encoded)).
      { rewrite <- PyDictOrder.set_absent
          by (apply (Hfresh f); now left).
        apply PyDictFacts.get_set_same. }
      rewrite Hget. cbn [PyDict.set]. rewrite String.eqb_refl. reflexivity. }
    rewrite Hstep, IH; try assumption.
    + rewrite <- app_assoc. reflexivity.
    + unfold PyDict.keys. rewrite map_app, in_app_iff. simpl.
      intros [Hin|[Heq|[]]]; [now apply Htot | now apply Hf].
    + intros g Hg. unfold PyDict.keys. rewrite map_app, in_app_iff. simpl.
      intros [Hin|[Heq|[]]].
      * apply (Hfresh g); [now right | assumption].
      * apply Hnotin. rewrite Heq. now apply in_map.
Qed.
End OneBatch.

(** The total is the first entry of the mapping, whatever the tags. *)
Lemma model_losses_head (self : CaptchaModule) (batch : Batch) :
  exists total entries,
    model_losses self batch = ("total_loss", total) :: entries.
Proof.
  unfold model_losses.
  set (step := loss_iter (net_call (net self) (fst batch)) (fst batch) (snd batch)).
  assert (Hhead : forall fns t entries,
             exists t' entries',
               fold_left step fns (("total_loss", t) :: entries)
               = ("total_loss", t') :: entries').
  { induction fns as [|f fns IH]; intros t entries; simpl.
    - eexists. eexists. reflexivity.
    - assert (Hone : exists t' entries',
                 step (("total_loss", t) :: entries) f
                 = ("total_loss", t') :: entries').
      { subst step. unfold loss_iter. cbn [PyDict.set].
        destruct (String.eqb_spec "total_loss" (tag f)) as [Heq|Hne].
        - cbn [PyDict.get]. rewrite String.eqb_refl, <- Heq, String.eqb_refl.
          cbn [PyDict.set]. rewrite String.eqb_refl.
          eexists. eexists. reflexivity.
        - cbn [PyDict.get]. rewrite String.eqb_refl.
          destruct (String.eqb_spec "total_loss" (tag f)); [contradiction|].
          destruct (PyDict.get (PyDict.set entries (tag f) _) (tag f)).
          + cbn [PyDict.set]. rewrite String.eqb_refl.
            eexists. eexists. reflexivity.
          + eexists. eexists. reflexivity. }
      destruct Hone as (t' & entries' & ->). apply IH. }
  apply Hhead.
Qed.

(** X1.  Whatever the tags, [model_step] returns a mapping whose keys are
    ["total_loss"] first and then the tags of the loss functions, each once,
    in the order of their first occurrence in the list. *)
Theorem model_step_key_order (self : CaptchaModule) (batch : Batch) :
  exists losses,
    model_step batch self
    = Returned (losses, net_call (net self) (fst batch), fst batch, snd batch)
        self []
    /\ PyDict.keys losses
       = first_occurrences ("total_loss" :: map tag (loss_fns self))
    /\ exists rest, PyDict.keys losses = "total_loss" :: rest.
Proof.
  exists (model_losses self batch).
  split; [apply model_step_returns|].
  assert (Hkeys : PyDict.keys (model_losses self batch)
                  = first_occurrences ("total_loss" :: map tag (loss_fns self))).
  { unfold model_losses.
    apply (fold_keys _ _ _ (loss_fns self) _ ["total_loss"]);
      [reflexivity | now left]. }
  split; [exact Hkeys|].
  destruct (model_losses_head self batch) as (t & entries & ->).
  simpl. eexists. reflexivity.
Qed.

(** X2.  When the tags are pairwise distinct and none is ["total_loss"], the
    mapping of [model_step] is the total followed by one entry per loss
    function, in list order: the tag with the value the function returns. *)
Theorem model_step_distinct_tags (self : CaptchaModule) (batch : Batch) :
  tags_avoid_total (loss_fns self) ->
  NoDup (map tag (loss_fns self)) ->
  let prediction := net_call (net self) (fst batch) in
  model_step batch self
  = Returned
      (("total_loss",
        weighted_sum prediction (fst batch) (snd batch) (loss_fns self))
       :: map (loss_entry prediction (fst batch) (snd batch)) (loss_fns self),
       prediction, fst batch, snd batch)
      self [].
Proof.
  intros Hall Hnd prediction. rewrite model_step_returns.
  unfold model_losses. cbn [PyDict.set]. fold prediction.
  rewrite fold_distinct; auto.
Qed.

(** X3.  A loss function tagged ["total_loss"] restarts the total: when it
    is the last one with that tag, [total_loss] is its value plus value
    times weight, followed by the contributions of the functions after it;
    whatever was added up before it is lost. *)
Theorem model_step_reserved_tag_restarts_total (self : CaptchaModule)
    (batch : Batch) before g after :
  loss_fns self = before ++ g :: after ->
  tag g = "total_loss" ->
  tags_avoid_total after ->
  let prediction := net_call (net self) (fst batch) in
  let value := loss_call g prediction (fst batch) (snd batch) in
  exists losses,
    model_step batch self
    = Returned (losses, prediction, fst batch, snd batch) self []
    /\ PyDict.get losses "total_loss"
       = Some (weighted_sum_from prediction (fst batch) (snd batch) after
                 (add value (mul value (weight g)))).
Proof.
  intros Hsplit Htag Hafter prediction value.
  exists (model_losses self batch). split; [apply model_step_returns|].
  unfold model_losses. fold prediction.
  rewrite Hsplit, fold_left_app. simpl.
  apply fold_total; [assumption|].
  unfold loss_iter. rewrite Htag.
  rewrite !PyDictFacts.get_set_same. reflexivity.
Qed.
End Mapping.

(** ** The step handlers and the loops around them *)

Section Loops.
Context {R : Type} `{Scalar R} `{Collaborators R}.

(** The mapping depends on the instance through its network and its loss
    functions only. *)
Lemma model_losses_ext (self1 self2 : CaptchaModule) (batch : Batch) :
  net self1 = net self2 -> loss_fns self1 = loss_fns self2 ->
  model_losses self1 batch = model_losses self2 batch.
Proof.
  intros Hnet Hfns. unfold model_losses. now rewrite Hnet, Hfns.
Qed.

Lemma batch_totals_ext (self1 self2 : CaptchaModule) batches :
  net self1 = net self2 -> loss_fns self1 = loss_fns self2 ->
  batch_totals self1 batches = batch_totals self2 batches.
Proof.
  intros Hnet Hfns. unfold batch_totals. apply map_ext.
  intros b. now rewrite (model_losses_ext self1 self2).
Qed.

(** X4.  On a batch, the three step handlers work with one and the same
    total, which is never missing: each adds it to the running mean of its
    own stage and to no other, and logs it first, under
    [<stage>/total_loss]; [training_step] returns it, and [test_step]
    touches the counters besides. *)
Theorem step_handlers_feed_their_running_mean (self : CaptchaModule)
    (batch : Batch) (batch_idx : Z) :
  exists total,
    (exists rest,
       training_step batch batch_idx self
       = Returned (Some total)
           (set_train_loss (train_loss self ++ [Some total]) self)
           (Log "train/total_loss" total (Some false) (Some true) true :: rest))
    /\ (exists rest,
          validation_step batch batch_idx self
          = Returned tt
              (set_val_loss (val_loss self ++ [Some total]) self)
              (Log "val/total_loss" total (Some false) (Some true) true :: rest))
    /\ (exists rest,
          test_step batch batch_idx self
          = Returned tt
              (set_test_loss (test_loss self ++ [Some total])
                 (set_counts
                    (get_accuracy (net self) (device self) (fst batch)
                       (snd batch)) self))
              (GetAccuracy (net self) (device self) (fst batch) (snd batch)
               :: Log "test/total_loss" total (Some false) (Some true) true
               :: rest)).
Proof.
  destruct (model_losses_head self batch) as (total & entries & Hhead).
  exists total.
  rewrite training_step_run, validation_step_run, test_step_run.
  rewrite Hhead. cbn [PyDict.get]. rewrite String.eqb_refl.
  unfold metric_update. simpl.
  split; [eexists; reflexivity|].
  split; eexists; reflexivity.
Qed.

Lemma test_steps_totals (batches : list Batch) :
  forall (self : CaptchaModule) (batch_idx : Z),
  exists self' out,
    test_steps batches batch_idx self = Returned tt self' out
    /\ test_loss self' = test_loss self ++ batch_totals self batches
    /\ train_loss self' = train_loss self
    /\ val_loss self' = val_loss self
    /\ net self' = net self
    /\ loss_fns self' = loss_fns self.
Proof.
  induction batches as [|b rest IH]; intros self batch_idx.
  - exists self, []. simpl. rewrite app_nil_r. repeat split; reflexivity.
  - simpl test_steps. unfold bind. rewrite test_step_run.
    match goal with
    | |- context [test_steps rest _ ?s1] =>
        destruct (IH s1 (batch_idx + 1))
          as (self' & out & Hrun & Htest & Htrain & Hval & Hnet & Hfns)
    end.
    rewrite Hrun. eexists. eexists. split; [reflexivity|].
    rewrite Htest, Htrain, Hval, Hnet, Hfns. simpl.
    rewrite (batch_totals_ext _ self) by reflexivity.
    unfold metric_update. rewrite <- app_assoc. repeat split; reflexivity.
Qed.

Lemma validation_steps_totals (batches : list Batch) :
  forall (self : CaptchaModule) (batch_idx : Z),
  exists self' out,
    validation_steps batches batch_idx self = Returned tt self' out
    /\ self' = set_val_loss (val_loss self ++ batch_totals self batches) self
    /\ length (filter is_visualizer_call out)
       = length (filter (fun i => i mod 100 =? 0)
                   (batch_indices (length batches) batch_idx)).
Proof.
  induction batches as [|b rest IH]; intros self batch_idx.
  - exists self, []. simpl. rewrite app_nil_r.
    split; [reflexivity|]. split; [now destruct self | reflexivity].
  - simpl validation_steps. unfold bind. rewrite validation_step_run.
    match goal with
    | |- context [validation_steps rest _ ?s1] =>
        destruct (IH s1 (batch_idx + 1)) as (self' & out & Hrun & Hself & Hcount)
    end.
    rewrite Hrun. eexists. eexists. split; [reflexivity|]. split.
    + rewrite Hself. simpl.
      rewrite (batch_totals_ext _ self) by reflexivity.
      unfold metric_update, set_val_loss. simpl.
      rewrite <- app_assoc. reflexivity.
    + rewrite !filter_app, !length_app, Hcount.
      assert (Hlogs : forall prefix (d : PyDict.t R),
                 filter is_visualizer_call (map (log_entry prefix) d) = []).
      { intros prefix d. induction d as [|e d IHd]; [reflexivity|exact IHd]. }
      rewrite Hlogs. simpl.
      destruct (batch_idx mod 100 =? 0); reflexivity.
Qed.

(** X5.  Over a run of test steps the running mean [test_loss] receives the
    total of every batch, in order, while the two counters keep the pair of
    the last batch only; the training and validation means, the network and
    the loss functions are left alone. *)
Theorem test_steps_accumulate_loss_not_counts (self : CaptchaModule)
    (batches : list Batch) (last : Batch) (batch_idx : Z) :
  exists self' out,
    test_steps (batches ++ [last]) batch_idx self = Returned tt self' out
    /\ test_loss self'
       = test_loss self ++ batch_totals self (batches ++ [last])
    /\ length (test_loss self')
       = (length (test_loss self) + length batches + 1)%nat
    /\ (correct_count self', total_count self')
       = get_accuracy (net self) (device self) (fst last) (snd last)
    /\ train_loss self' = train_loss self
    /\ val_loss self' = val_loss self
    /\ net self' = net self
    /\ loss_fns self' = loss_fns self.
Proof.
  destruct (test_steps_totals (batches ++ [last]) self batch_idx)
    as (self' & out & Hrun & Htest & Htrain & Hval & Hnet & Hfns).
  destruct (test_steps_run (batches ++ [last]) self batch_idx)
    as (self'' & out' & Hrun' & _ & _ & Hcnt).
  rewrite Hrun in Hrun'. inversion Hrun'; subst self'' out'.
  exists self', out. split; [exact Hrun|].
  split; [exact Htest|].
  split.
  { rewrite Htest. unfold batch_totals.
    rewrite !length_app, length_map, length_app. simpl. lia. }
  split; [|repeat split; assumption].
  rewrite Hcnt, rev_app_distr. reflexivity.
Qed.

(** X6.  Validation steps run before training starts (the sanity check)
    leave nothing in [val_loss]: after them, [on_train_start] and a
    validation run, [val_loss] holds the totals of that run alone. *)
Theorem sanity_check_results_are_discarded (self : CaptchaModule)
    (sanity batches : list Batch) (i j : Z) :
  exists self' out,
    (validation_steps sanity i ;; on_train_start ;; validation_steps batches j)
      self
    = Returned tt self' out
    /\ val_loss self' = batch_totals self batches
    /\ train_loss self' = train_loss self
    /\ test_loss self' = test_loss self.
Proof.
  destruct (validation_steps_totals sanity self i) as (s1 & o1 & Hrun1 & Hs1 & _).
  unfold bind at 1. rewrite Hrun1.
  unfold bind at 1. unfold on_train_start at 1. unfold bind at 1 2, modify.
  match goal with
  | |- context [validation_steps batches j ?s2] =>
      destruct (validation_steps_totals batches s2 j)
        as (s3 & o3 & Hrun3 & Hs3 & _)
  end.
  rewrite Hrun3. eexists. eexists. split; [reflexivity|].
  rewrite Hs3, Hs1. simpl.
  split; [|split; reflexivity].
  apply batch_totals_ext; reflexivity.
Qed.

(** X7.  Over a validation run the visualizer is called once for every
    batch number divisible by 100 and for no other; on a run numbered from
    0 that is [(n + 99) / 100] calls for [n] batches. *)
Theorem validation_run_visualizer_calls (self : CaptchaModule)
    (batches : list Batch) :
  (forall batch_idx,
     exists self' out,
       validation_steps batches batch_idx self = Returned tt self' out
       /\ length (filter is_visualizer_call out)
          = length (filter (fun i => i mod 100 =? 0)
                      (batch_indices (length batches) batch_idx)))
  /\ exists self' out,
       validation_steps batches 0 self = Returned tt self' out
       /\ Z.of_nat (length (filter is_visualizer_call out))
          = (Z.of_nat (length batches) + 99) / 100.
Proof.
  split.
  - intros batch_idx.
    destruct (validation_steps_totals batches self batch_idx)
      as (self' & out & Hrun & _ & Hcount).
    exists self', out. split; assumption.
  - destruct (validation_steps_totals batches self 0)
      as (self' & out & Hrun & _ & Hcount).
    exists self', out. split; [exact Hrun|]. rewrite Hcount.
    clear. generalize (length batches) as n. intros n.
    assert (Hgen : forall n start, 0 <= start ->
               Z.of_nat (length (filter (fun i => i mod 100 =? 0)
                                   (batch_indices n start)))
               = (start + Z.of_nat n + 99) / 100 - (start + 99) / 100).
    { clear. induction n as [|n IH]; intros start Hstart.
      - simpl. rewrite Z.add_0_r. lia.
      - cbn [batch_indices filter].
        assert (Hstep : (start + 1 + 99) / 100
                        = (start + 99) / 100
                          + (if start mod 100 =? 0 then 1 else 0)).
        { pose proof (Z.div_mod start 100 ltac:(lia)) as Hdm.
          pose proof (Z.mod_pos_bound start 100 ltac:(lia)) as Hb.
          destruct (Z.eqb_spec (start mod 100) 0) as [Hz|Hnz].
          - assert (Hq1 : start / 100 + 1 = (start + 1 + 99) / 100)
              by (apply Z.div_unique with (r := 0); lia).
            assert (Hq2 : start / 100 = (start + 99) / 100)
              by (apply Z.div_unique with (r := 99); lia).
            lia.
          - assert (Hq1 : start / 100 + 1 = (start + 1 + 99) / 100)
              by (apply Z.div_unique with (r := start mod 100); lia).
            assert (Hq2 : start / 100 + 1 = (start + 99) / 100)
              by (apply Z.div_unique with (r := start mod 100 - 1); lia).
            lia. }
        destruct (Z.eqb_spec (start mod 100) 0) as [Hz|Hnz].
        + cbn [length]. rewrite Nat2Z.inj_succ, IH by lia.
          replace (start + 1 + Z.of_nat n + 99)
            with (start + Z.succ (Z.of_nat n) + 99) by lia.
          lia.
        + rewrite IH by lia.
          replace (start + 1 + Z.of_nat n + 99)
            with (start + Z.of_nat (S n) + 99) by lia.
          lia. }
    rewrite Hgen by lia.
    replace (0 + Z.of_nat n + 99) with (Z.of_nat n + 99) by lia.
    replace ((0 + 99) / 100) with 0 by reflexivity. lia.
Qed.
End Loops.

(** ** Runs of callbacks *)

Section Calls.
Context {R : Type} `{Scalar R} `{Collaborators R}.

Lemma final_self_bind {A B} (c : M A) (k : A -> M B) (self : CaptchaModule) :
  final_self (bind c k self)
  = match c self with
    | Returned a self1 _ => final_self (k a self1)
    | Raised _ self1 _ => self1
    end.
Proof.
  unfold bind. destruct (c self) as [a s1 o1|e s1 o1]; [|reflexivity].
  destruct (k a s1); reflexivity.
Qed.

(** What one call can do to the instance: it returns or raises with the
    instance in one of the shapes below. *)
Lemma dispatch_final (c : Call) (self : CaptchaModule) :
  let self' := final_self (dispatch c self) in
  hparams self' = hparams self
  /\ loss_fns self' = loss_fns self
  /\ num_classes self' = num_classes self
  /\ train_acc self' = train_acc self
  /\ test_acc self' = test_acc self
  /\ (val_acc self' = val_acc self \/ val_acc self' = [])
  /\ (val_acc_best self' = val_acc_best self \/ val_acc_best self' = [])
  /\ net self'
     = if hp_compile (hparams self) && is_fit_setup c
       then torch_compile (net self) else net self.
Proof.
  destruct c as [stage| | |batch batch_idx| |batch batch_idx| |batch batch_idx|];
    unfold dispatch.
  - rewrite setup_run. cbn [final_self is_fit_setup].
    destruct (hp_compile (hparams self) && String.eqb stage "fit");
      simpl; repeat split; auto.
  - unfold configure_optimizers, bind, get_self.
    rewrite andb_false_r.
    destruct (hp_scheduler (hparams self)); simpl; repeat split; auto.
  - rewrite andb_false_r. simpl. repeat split; auto.
  - unfold bind. rewrite training_step_run. rewrite andb_false_r.
    simpl. repeat split; auto.
  - rewrite andb_false_r. simpl. repeat split; auto.
  - rewrite validation_step_run. rewrite andb_false_r.
    simpl. repeat split; auto.
  - rewrite andb_false_r. simpl. repeat split; auto.
  - rewrite test_step_run. rewrite andb_false_r. simpl. repeat split; auto.
  - rewrite andb_false_r.
    destruct (Z.eq_dec (total_count self) 0) as [Hz|Hnz].
    + rewrite on_test_epoch_end_raises by assumption. simpl. repeat split; auto.
    + rewrite on_test_epoch_end_run by assumption. simpl. repeat split; auto.
Qed.

Lemma run_calls_cons (c : Call) (rest : list Call) (self : CaptchaModule) :
  final_self (run_calls (c :: rest) self)
  = match dispatch c self with
    | Returned _ self1 _ => final_self (run_calls rest self1)
    | Raised _ self1 _ => self1
    end.
Proof.
  cbn [run_calls]. apply final_self_bind.
Qed.

(** X8.  No hook ever updates an accuracy metric or the tracker of the best
    accuracy: through any run of callbacks, ended by an exception or not,
    [train_acc] and [test_acc] stay as they were, [val_acc] and
    [val_acc_best] stay as they were or are emptied, and the
    hyperparameters, the loss functions and the number of classes do not
    change.  On a fresh instance the four metrics therefore stay empty, and
    the number of classes stays the network's plus one. *)
Theorem callbacks_never_update_accuracy_metrics :
  (forall (calls : list Call) (self : CaptchaModule),
     let self' := final_self (run_calls calls self) in
     train_acc self' = train_acc self
     /\ test_acc self' = test_acc self
     /\ (val_acc self' = val_acc self \/ val_acc self' = [])
     /\ (val_acc_best self' = val_acc_best self \/ val_acc_best self' = [])
     /\ hparams self' = hparams self
     /\ loss_fns self' = loss_fns self
     /\ num_classes self' = num_classes self)
  /\ (forall (calls : list Call) net0 optimizer fns scheduler compile dev,
        let self' :=
          final_self
            (run_calls calls (init net0 optimizer fns scheduler compile dev)) in
        train_acc self' = [] /\ val_acc self' = [] /\ test_acc self' = []
        /\ val_acc_best self' = []
        /\ num_classes self' = net_num_classes net0 + 1).
Proof.
  assert (Hrun : forall (calls : list Call) (self : CaptchaModule),
             let self' := final_self (run_calls calls self) in
             train_acc self' = train_acc self
             /\ test_acc self' = test_acc self
             /\ (val_acc self' = val_acc self \/ val_acc self' = [])
             /\ (val_acc_best self' = val_acc_best self
                 \/ val_acc_best self' = [])
             /\ hparams self' = hparams self
             /\ loss_fns self' = loss_fns self
             /\ num_classes self' = num_classes self).
  { induction calls as [|c rest IH]; intros self; cbn zeta.
    - simpl. repeat split; auto.
    - rewrite run_calls_cons.
      pose proof (dispatch_final c self) as Hc. cbn zeta in Hc.
      destruct (dispatch c self) as [[] s1 o1|e s1 o1]; cbn [final_self] in Hc.
      + destruct Hc as (Hhp & Hfns & Hnc & Htr & Hte & Hva & Hvb & _).
        destruct (IH s1) as (Htr' & Hte' & Hva' & Hvb' & Hhp' & Hfns' & Hnc').
        rewrite Htr', Hte', Hhp', Hfns', Hnc'.
        repeat split; try assumption.
        * destruct Hva' as [->| ->]; auto.
        * destruct Hvb' as [->| ->]; auto.
      + destruct Hc as (Hhp & Hfns & Hnc & Htr & Hte & Hva & Hvb & _).
        repeat split; assumption. }
  split; [exact Hrun|].
  intros calls net0 optimizer fns scheduler compile dev.
  destruct (Hrun calls (init net0 optimizer fns scheduler compile dev))
    as (Htr & Hte & Hva & Hvb & _ & _ & Hnc).
  cbn zeta. rewrite Htr, Hte, Hnc. simpl.
  repeat split; try reflexivity.
  - destruct Hva as [->| ->]; reflexivity.
  - destruct Hvb as [->| ->]; reflexivity.
Qed.

(** X9.  The network changes in [setup("fit")] only, and there only with
    the compile flag.  Without the flag, or through a run with no
    [setup("fit")], the network stays as it was, whether the run returns or
    raises; with the flag, a run that returns and contains exactly one
    [setup("fit")] leaves the network compiled once. *)
Theorem network_changes_only_in_fit_setup (calls : list Call)
    (self : CaptchaModule) :
  (hp_compile (hparams self) = false \/ count_fit calls = 0%nat ->
   net (final_self (run_calls calls self)) = net self)
  /\ (hp_compile (hparams self) = true ->
      count_fit calls = 1%nat ->
      forall self' out,
        run_calls calls self = Returned tt self' out ->
        net self' = torch_compile (net self)).
Proof.
  assert (Hkeep : forall (calls : list Call) (self : CaptchaModule),
             hp_compile (hparams self) = false \/ count_fit calls = 0%nat ->
             net (final_self (run_calls calls self)) = net self).
  { clear. induction calls as [|c rest IH]; intros self Hcase.
    - reflexivity.
    - rewrite run_calls_cons.
      pose proof (dispatch_final c self) as Hc. cbn zeta in Hc.
      assert (Hoff : hp_compile (hparams self) && is_fit_setup c = false).
      { destruct Hcase as [Hflag|Hcount].
        - now rewrite Hflag.
        - unfold count_fit in Hcount. cbn [filter] in Hcount.
          destruct (is_fit_setup c); [discriminate | apply andb_false_r]. }
      rewrite Hoff in Hc.
      destruct (dispatch c self) as [[] s1 o1|e s1 o1]; cbn [final_self] in Hc;
        destruct Hc as (Hhp & _ & _ & _ & _ & _ & _ & Hnet).
      + rewrite IH; [exact Hnet|].
        destruct Hcase as [Hflag|Hcount].
        * left. now rewrite Hhp.
        * right. unfold count_fit in *. cbn [filter] in Hcount.
          destruct (is_fit_setup c); [discriminate | exact Hcount].
      + exact Hnet. }
  split; [apply Hkeep|].
  revert self. induction calls as [|c rest IH];
    intros self Hflag Hcount self' out Hrun.
  - discriminate.
  - cbn [run_calls] in Hrun. unfold bind in Hrun.
    pose proof (dispatch_final c self) as Hc. cbn zeta in Hc.
    rewrite Hflag in Hc. cbn [andb] in Hc.
    destruct (dispatch c self) as [[] s1 o1|e s1 o1] eqn:Hdisp; [|discriminate].
    cbn [final_self] in Hc.
    destruct Hc as (Hhp & _ & _ & _ & _ & _ & _ & Hnet).
    assert (Hflag1 : hp_compile (hparams s1) = true) by (now rewrite Hhp).
    destruct (run_calls rest s1) as [[] s2 o2|e s2 o2] eqn:Hrest;
      [|discriminate].
    inversion Hrun; subst s2 out.
    unfold count_fit in Hcount. cbn [filter] in Hcount.
    destruct (is_fit_setup c).
    + cbn [length] in Hcount.
      assert (Hzero : count_fit rest = 0%nat)
        by (unfold count_fit; now injection Hcount).
      pose proof (Hkeep rest s1 (or_intror Hzero)) as Hsame.
      rewrite Hrest in Hsame. cbn [final_self] in Hsame.
      now rewrite Hsame.
    + rewrite (IH s1 Hflag1 Hcount self' o2 Hrest). now rewrite Hnet.
Qed.

(** X10.  [on_test_epoch_end] does not reset the counters: after a test
    epoch that ended on a batch with a non-zero total, a test epoch without
    any batch does not fail but logs the accuracy of the previous epoch
    again. *)
Theorem test_epoch_without_batches_reuses_counts (self : CaptchaModule)
    (batches : list Batch) (last : Batch) :
  snd (get_accuracy (net self) (device self) (fst last) (snd last)) <> 0 ->
  exists self' out accuracy,
    test_epoch (batches ++ [last]) self
    = Returned tt self'
        (out ++ [Log "Test Dataset Accuracy" accuracy None None false])
    /\ (correct_count self', total_count self')
       = get_accuracy (net self) (device self) (fst last) (snd last)
    /\ test_epoch [] self'
       = Returned tt self'
           [Log "Test Dataset Accuracy" accuracy None None false].
Proof.
  intros Hnz.
  destruct (test_steps_run (batches ++ [last]) self 0)
    as (self' & out & Hrun & _ & _ & Hcnt).
  rewrite rev_app_distr in Hcnt. simpl in Hcnt.
  assert (Htotal : total_count self' <> 0).
  { change (total_count self')
      with (snd (correct_count self', total_count self')).
    now rewrite Hcnt. }
  exists self', out. eexists.
  split; [|split; [exact Hcnt|]].
  - unfold test_epoch, bind. rewrite Hrun.
    rewrite on_test_epoch_end_run by assumption. reflexivity.
  - unfold test_epoch, bind. cbn [test_steps]. unfold ret at 1.
    rewrite on_test_epoch_end_run by assumption. reflexivity.
Qed.
End Calls.

(** ** More runs on concrete inputs *)

Module MoreBinary64Runs.
#[local] Existing Instance Demo.world_float.

(** Two distinct tags: the mapping is the total and the two entries. *)
Lemma model_step_distinct_tags_two_losses :
  let self := Demo.module_with Demo.two_losses None false in
  tags_avoid_total (loss_fns self)
  /\ NoDup (map tag (loss_fns self))
  /\ model_step (R := float) Demo.batch_45_of_50 self
     = Returned
         ([("total_loss", 6.5%float); ("ctc", 1%float); ("center", 3%float)],
          57%nat, 50%nat, 45%nat) self [].
Proof.
  cbn zeta.
  assert (Hall : tags_avoid_total
                   (loss_fns (Demo.module_with Demo.two_losses None false))).
  { apply tags_avoid_totalb_spec. reflexivity. }
  assert (Hnd : NoDup (map tag
                         (loss_fns (Demo.module_with Demo.two_losses None false)))).
  { simpl. constructor; [simpl; intros [Heq|[]]; discriminate|].
    constructor; [intros []|constructor]. }
  split; [exact Hall|]. split; [exact Hnd|].
  pose proof (model_step_distinct_tags
                (Demo.module_with Demo.two_losses None false)
                Demo.batch_45_of_50 Hall Hnd) as Hrun.
  cbn zeta in Hrun. refine (eq_trans Hrun _). vm_compute. reflexivity.
Defined.

(** Between two ordinary losses, a loss tagged ["total_loss"] with weight
    2.0 and value 3.0: the 0.5 added before it is lost, the total is
    3.0 + 3.0 * 2.0 + 3.0 * 2.0 = 15.0. *)
Lemma model_step_reserved_tag_in_the_middle :
  let fns := [ Demo.const_loss "ctc" 0.5%float 1%float;
               Demo.const_loss "total_loss" 2%float 3%float;
               Demo.const_loss "center" 2%float 3%float ] in
  let self := Demo.module_with fns None false in
  exists losses,
    model_step (R := float) Demo.batch_45_of_50 self
    = Returned (losses, 57%nat, 50%nat, 45%nat) self []
    /\ PyDict.get losses "total_loss" = Some 15%float.
Proof.
  cbn zeta.
  destruct (model_step_reserved_tag_restarts_total
              (Demo.module_with
                 [ Demo.const_loss "ctc" 0.5%float 1%float;
                   Demo.const_loss "total_loss" 2%float 3%float;
                   Demo.const_loss "center" 2%float 3%float ] None false)
              Demo.batch_45_of_50
              [Demo.const_loss "ctc" 0.5%float 1%float]
              (Demo.const_loss "total_loss" 2%float 3%float)
              [Demo.const_loss "center" 2%float 3%float]
              eq_refl eq_refl
              (proj1 (tags_avoid_totalb_spec
                        [Demo.const_loss "center" 2%float 3%float]) eq_refl))
    as (losses & Hrun & Htotal).
  exists losses. split; [exact Hrun|].
  rewrite Htotal. vm_compute. reflexivity.
Defined.

(** A fit and a training step, with the compile flag: the network 7 is
    compiled into 8; without the flag it stays 7. *)
Lemma network_compiled_by_one_fit :
  let calls := [ CallSetup "fit"; CallTrainingStep Demo.batch_45_of_50 0;
                 CallSetup "validate" ] in
  (exists self' out,
     run_calls (R := float) calls (Demo.module_with Demo.two_losses None true)
     = Returned tt self' out
     /\ net self' = 8%nat)
  /\ net (final_self
            (run_calls (R := float) calls
               (Demo.module_with Demo.two_losses None false)))
     = 7%nat.
Proof.
  cbn zeta. split.
  - match goal with
    | |- exists self' out, run_calls ?calls ?self = _ /\ _ =>
        pose proof (proj2 (network_changes_only_in_fit_setup calls self)
                      eq_refl eq_refl) as Hfit;
        assert (Hret : exists self' out,
                   run_calls calls self = Returned tt self' out)
          by (eexists; eexists; vm_compute; reflexivity)
    end.
    destruct Hret as (self' & out & Hret).
    exists self', out. split; [exact Hret|].
    rewrite (Hfit self' out Hret). reflexivity.
  - match goal with
    | |- net (final_self (run_calls ?calls ?self)) = _ =>
        exact (proj1 (network_changes_only_in_fit_setup calls self)
                 (or_introl eq_refl))
    end.
Defined.

(** After an epoch on one batch of 45 correct answers out of 50, an epoch
    without batches logs 90.0 again. *)
Lemma test_epoch_without_batches_after_45_of_50 :
  exists self' out,
    test_epoch (R := float) ([] ++ [Demo.batch_45_of_50])
      (Demo.module_with Demo.two_losses None false)
    = Returned tt self'
        (out ++ [Log "Test Dataset Accuracy" 90%float None None false])
    /\ test_epoch [] self'
       = Returned tt self' [Log "Test Dataset Accuracy" 90%float None None false].
Proof.
  destruct (test_epoch_without_batches_reuses_counts
              (Demo.module_with Demo.two_losses None false) []
              Demo.batch_45_of_50 ltac:(discriminate))
    as (self' & out & accuracy & Hrun & _ & Hagain).
  assert (Hacc : accuracy = 90%float).
  { pose proof (f_equal
                  (fun o => last (trace o) (GetAccuracy 0%nat tt 0%nat 0%nat))
                  Hrun) as Hlast.
    cbn beta in Hlast. cbn [trace] in Hlast. rewrite last_last in Hlast.
    vm_compute in Hlast.
    exact (f_equal (fun e => match e with
                             | Log _ value _ _ _ => value
                             | _ => accuracy
                             end) (eq_sym Hlast)). }
  exists self', out. rewrite <- Hacc. split; assumption.
Defined.
End MoreBinary64Runs.
